(** * Camera tracker of [project2_ex1_fbx_tiktok.py]

    A shallow embedding of [get_target_world_location] and
    [setup_camera_tracking], the routine that bakes one look-at camera
    pose per sampled animation frame, together with the part of the
    Blender host that the routine talks to.

    The routine is written against Python floats; the embedding is
    generic in the arithmetic (class [Num]) and comes with two
    instances: IEEE binary64 (what a Python [float] is) and exact
    rationals.

    The camera is the one object the routine writes, so it is part of the
    scene state [Host] instead of an argument.  A property of the camera
    reads back as the value last assigned to it.  The target is only
    read; its matrices are functions of the frame, which is how the
    imported animation shows through [scene.frame_set].  Frame numbers
    are unbounded integers.  Every call into the host is appended to the
    [trace] of the scene. *)

From Stdlib Require Import ZArith QArith Lia List Sorted.
From Stdlib Require Import Floats.PrimFloat.
From stdpp Require Import base option list gmap strings.

Local Open Scope Z_scope.

(** ** Arithmetic *)

(** The operations the script applies to coordinates.  [feqb] is
    Python's [==]. *)
Class Num (F : Type) := {
  fzero : F;
  fadd : F -> F -> F;
  fsub : F -> F -> F;
  fmul : F -> F -> F;
  feqb : F -> F -> bool
}.

(** Python floats: IEEE 754 binary64, round to nearest even. *)
#[export] Instance binary64 : Num float := {|
  fzero := 0%float;
  fadd := PrimFloat.add;
  fsub := PrimFloat.sub;
  fmul := PrimFloat.mul;
  feqb := PrimFloat.eqb
|}.

(** Exact rational arithmetic, the reading of the formulas on paper. *)
#[export] Instance exact : Num Q := {|
  fzero := 0%Q;
  fadd := Qplus;
  fsub := Qminus;
  fmul := Qmult;
  feqb := Qeq_bool
|}.


(** ** Data *)

(** A 3-tuple of coordinates, [tuple(m.translation)] in the script. *)
Definition Vec3 (F : Type) : Type := F * F * F.

Definition vx {F} (v : Vec3 F) : F := v.1.1.
Definition vy {F} (v : Vec3 F) : F := v.1.2.
Definition vz {F} (v : Vec3 F) : F := v.2.

(** [v == Vector((0, 0, 0))]: every component compares equal to zero. *)
Definition vec_is_zero {F} `{Num F} (v : Vec3 F) : bool :=
  feqb (vx v) fzero && feqb (vy v) fzero && feqb (vz v) fzero.

(** The part of [mathutils] the script calls.  The library belongs to the
    host, so its types and functions are an interface here. *)
Class Mathutils (F : Type) := {
  Matrix : Type;
  Quaternion : Type;
  Euler : Type;
  (** [a @ b] *)
  matmul : Matrix -> Matrix -> Matrix;
  (** [m.translation] *)
  translation : Matrix -> Vec3 F;
  (** [v.to_track_quat(track, up)] *)
  to_track_quat : Vec3 F -> string -> string -> Quaternion;
  (** [q.to_euler()] *)
  quat_to_euler : Quaternion -> Euler;
  (** [e.to_quaternion()] *)
  euler_to_quaternion : Euler -> Quaternion
}.

(** Baked keys of the camera, one table per data path, indexed by frame.
    Inserting at a frame that already has a key replaces it. *)
Record AnimData (F : Type) `{Mathutils F} := mkAnimData {
  location_keys : gmap Z (Vec3 F);
  rotation_keys : gmap Z Euler
}.
Arguments mkAnimData {F _} _ _.
Arguments location_keys {F _} _.
Arguments rotation_keys {F _} _.

(** How the host re-evaluates an animated object when the frame changes:
    from the keys, the frame and the present value to the new value. *)
Class FCurves (F : Type) `{Mathutils F} := {
  evaluate_location : gmap Z (Vec3 F) -> Z -> Vec3 F -> Vec3 F;
  evaluate_rotation : gmap Z Euler -> Z -> Euler -> Euler
}.

(** [obj.type == "ARMATURE"] holds exactly for the objects with a pose;
    every other object has [obj.pose is None]. *)
Inductive ObjectData (F : Type) `{Mathutils F} :=
| ARMATURE (pose_bones : gmap string (Z -> Matrix))
| OTHER.
Arguments ARMATURE {F _} _.
Arguments OTHER {F _}.

(** A scene object that the imported animation drives: its matrices are
    functions of the frame the scene is on. *)
Record Object (F : Type) `{Mathutils F} := mkObject {
  data : ObjectData F;
  matrix_world : Z -> Matrix
}.
Arguments mkObject {F _} _ _.
Arguments data {F _} _.
Arguments matrix_world {F _} _.

Record Camera (F : Type) `{Mathutils F} := mkCamera {
  location : Vec3 F;
  rotation_euler : Euler;
  animation_data : option (AnimData F)
}.
Arguments mkCamera {F _} _ _ _.
Arguments location {F _} _.
Arguments rotation_euler {F _} _.
Arguments animation_data {F _} _.

(** What the routine prints. *)
Inductive Message :=
| SettingUp (frame_start frame_end : Z)
| Baked (count : Z).

(** Calls into the host, in the order they happen. *)
Inductive Event (F : Type) :=
| Echo (msg : Message)
| AnimationDataClear
| FrameSet (frame : Z)
| ReadWorld (scene_frame : Z) (position : Vec3 F)
| TrackQuat (direction : Vec3 F) (track up : string)
| KeyframeInsert (data_path : string) (frame : Z).
Arguments Echo {F} _.
Arguments AnimationDataClear {F}.
Arguments FrameSet {F} _.
Arguments ReadWorld {F} _ _.
Arguments TrackQuat {F} _ _ _.
Arguments KeyframeInsert {F} _ _.

(** The scene being edited: the frame the playback is on, the camera,
    and the calls made so far. *)
Record Host (F : Type) `{Mathutils F} := mkHost {
  frame_current : Z;
  camera : Camera F;
  trace : list (Event F)
}.
Arguments mkHost {F _} _ _ _.
Arguments frame_current {F _} _.
Arguments camera {F _} _.
Arguments trace {F _} _.

(** ** Effects *)

Inductive Exception := ValueError | AttributeError | TypeError | ZeroDivisionError.

Inductive Result (A : Type) :=
| Ok (a : A)
| Raise (e : Exception).
Arguments Ok {A} _.
Arguments Raise {A} _.

(** A computation on the scene: it returns or raises, and either way
    leaves the scene as far as it got. *)
Definition M (F : Type) `{Mathutils F} (A : Type) : Type :=
  Host F -> Result A * Host F.

Section Monad.
Context {F : Type} `{Mathutils F}.

Definition ret {A} (a : A) : M F A := fun st => (Ok a, st).

Definition bind {A B} (c : M F A) (k : A -> M F B) : M F B :=
  fun st =>
    match c st with
    | (Ok a, st') => k a st'
    | (Raise e, st') => (Raise e, st')
    end.

Definition raise {A} (e : Exception) : M F A := fun st => (Raise e, st).

(** [for x in xs: body(x)] *)
Fixpoint for_ {A} (xs : list A) (body : A -> M F unit) : M F unit :=
  match xs with
  | [] => ret tt
  | x :: xs' => bind (body x) (fun _ => for_ xs' body)
  end.
End Monad.

Notation "x <- c ;; k" := (bind c (fun x => k))
  (at level 100, c at next level, right associativity).
Notation "c ;; k" := (bind c (fun _ => k))
  (at level 100, right associativity).

(** ** Python built-ins *)

(** [len(range(start, stop, step))] for a non-zero step. *)
Definition range_length (start stop step : Z) : Z :=
  if 0 <? step
  then (if start <? stop then (stop - start - 1) / step + 1 else 0)
  else (if stop <? start then (start - stop - 1) / (- step) + 1 else 0).

(** [list(range(start, stop, step))]; a zero step is a [ValueError]. *)
Definition py_range (start stop step : Z) : Result (list Z) :=
  if step =? 0 then Raise ValueError
  else Ok ((fun i => start + i * step) <$> seqZ 0 (range_length start stop step)).

(** [a // b]: the floor of the quotient; a zero divisor is a
    [ZeroDivisionError]. *)
Definition py_floordiv (a b : Z) : Result Z :=
  if b =? 0 then Raise ZeroDivisionError else Ok (a / b).

(** Truth value of an [Optional[str]]: [None] and [""] are false. *)
Definition truthy (s : option string) : bool :=
  match s with
  | Some s => negb (String.eqb s "")
  | None => false
  end.

(** ** The script *)

(** [FRAME_STEP = 5  # Bake keyframes every N frames] *)
Definition FRAME_STEP : Z := 5.

Section Tracker.
Context {F : Type} {NF : Num F} {MU : Mathutils F} {FC : FCurves F}.

(** [CAMERA_DISTANCE] and [CAMERA_HEIGHT_OFFSET], the two float
    constants of the module (2.5 and 1.5 in the script). *)
Variable CAMERA_DISTANCE : F.
Variable CAMERA_HEIGHT_OFFSET : F.

(** *** Host operations *)

Definition lift {A} (r : Result A) : M F A := fun st => (r, st).

Definition record (e : Event F) : M F unit :=
  fun st => (Ok tt, mkHost (frame_current st) (camera st) (trace st ++ [e])).

Definition update_camera (f : Camera F -> Camera F) : M F unit :=
  fun st => (Ok tt, mkHost (frame_current st) (f (camera st)) (trace st)).

Definition echo (msg : Message) : M F unit := record (Echo msg).

(** [scene.frame_set(frame)]: the playback moves to [frame] and an
    animated camera is re-evaluated from its keys. *)
Definition frame_set (frame : Z) : M F unit :=
  fun st =>
    let cam := camera st in
    let cam' :=
      match animation_data cam with
      | Some ad =>
          mkCamera (evaluate_location (location_keys ad) frame (location cam))
                   (evaluate_rotation (rotation_keys ad) frame (rotation_euler cam))
                   (Some ad)
      | None => cam
      end in
    (Ok tt, mkHost frame cam' (trace st ++ [FrameSet frame])).

Definition current_frame : M F Z :=
  fun st => (Ok (frame_current st), st).

(** An attribute driven by the animation, read on the frame the scene
    is on. *)
Definition animated {A} (a : Z -> A) : M F A :=
  frame <- current_frame ;;
  ret (a frame).

(** [tuple(m.translation)]; the trace keeps the frame the scene was on. *)
Definition tuple_translation (m : Matrix) : M F (Vec3 F) :=
  frame <- current_frame ;;
  record (ReadWorld frame (translation m)) ;;
  ret (translation m).

Definition get_location : M F (Vec3 F) :=
  fun st => (Ok (location (camera st)), st).

Definition set_location (v : Vec3 F) : M F unit :=
  update_camera (fun c => mkCamera v (rotation_euler c) (animation_data c)).

Definition get_rotation_euler : M F Euler :=
  fun st => (Ok (rotation_euler (camera st)), st).

Definition set_rotation_euler (e : Euler) : M F unit :=
  update_camera (fun c => mkCamera (location c) e (animation_data c)).

Definition get_animation_data : M F (option (AnimData F)) :=
  fun st => (Ok (animation_data (camera st)), st).

(** [camera.animation_data_clear()] *)
Definition animation_data_clear : M F unit :=
  record AnimationDataClear ;;
  update_camera (fun c => mkCamera (location c) (rotation_euler c) None).

(** [direction.to_track_quat(track, up)] *)
Definition track_quat_of (direction : Vec3 F) (track up : string) : M F Quaternion :=
  record (TrackQuat direction track up) ;;
  ret (to_track_quat direction track up).

(** [camera.keyframe_insert(data_path=..., frame=...)]: the present value
    of the property becomes the key at [frame]; animation data is
    created when the camera has none; an unknown path is a [TypeError]. *)
Definition keyframe_insert (data_path : string) (frame : Z) : M F unit :=
  fun st =>
    let cam := camera st in
    let ad := default (mkAnimData ∅ ∅) (animation_data cam) in
    let keyed ad' :=
      (Ok tt, mkHost (frame_current st)
                     (mkCamera (location cam) (rotation_euler cam) (Some ad'))
                     (trace st ++ [KeyframeInsert data_path frame])) in
    if String.eqb data_path "location" then
      keyed (mkAnimData (<[frame := location cam]> (location_keys ad)) (rotation_keys ad))
    else if String.eqb data_path "rotation_euler" then
      keyed (mkAnimData (location_keys ad) (<[frame := rotation_euler cam]> (rotation_keys ad)))
    else (Raise TypeError, st).

(** *** [get_target_world_location] *)

Definition get_target_world_location (armature : Object F) (bone_name : string)
  : M F (Vec3 F) :=
  match data armature with
  | OTHER => raise AttributeError
  | ARMATURE pose_bones =>
      match pose_bones !! bone_name with
      | Some bone =>
          world <- animated (matrix_world armature) ;;
          bone_matrix <- animated bone ;;
          let matrix := matmul world bone_matrix in
          tuple_translation matrix
      | None =>
          (* Fallback to armature origin *)
          world <- animated (matrix_world armature) ;;
          tuple_translation world
      end
  end.

(** *** [setup_camera_tracking] *)

Definition type_is_armature (o : Object F) : bool :=
  match data o with
  | ARMATURE _ => true
  | OTHER => false
  end.

(** [(x, y - CAMERA_DISTANCE, z + CAMERA_HEIGHT_OFFSET)] *)
Definition camera_position (target_loc : Vec3 F) : Vec3 F :=
  (vx target_loc,
   fsub (vy target_loc) CAMERA_DISTANCE,
   fadd (vz target_loc) CAMERA_HEIGHT_OFFSET).

(** [Vector((t[0] - c[0], t[1] - c[1], t[2] - c[2]))] *)
Definition look_direction (target_loc camera_loc : Vec3 F) : Vec3 F :=
  (fsub (vx target_loc) (vx camera_loc),
   fsub (vy target_loc) (vy camera_loc),
   fsub (vz target_loc) (vz camera_loc)).

(** [if target.type == "ARMATURE" and bone_name: ... else: ...], the
    target's position as the loop body reads it. *)
Definition target_location (target : Object F) (bone_name : option string)
  : M F (Vec3 F) :=
  match bone_name with
  | Some name =>
      if type_is_armature target && truthy bone_name
      then get_target_world_location target name
      else (world <- animated (matrix_world target) ;; tuple_translation world)
  | None => world <- animated (matrix_world target) ;; tuple_translation world
  end.

(** One pass of the loop. *)
Definition bake_frame (target : Object F) (bone_name : option string) (frame : Z)
  : M F unit :=
  frame_set frame ;;
  (* Get target location *)
  target_loc <- target_location target bone_name ;;
  (* Position camera behind and above target *)
  set_location (camera_position target_loc) ;;
  (* Point camera at target *)
  camera_loc <- get_location ;;
  let direction := look_direction target_loc camera_loc in
  (* Calculate rotation to look at target *)
  euler <- get_rotation_euler ;;
  let rot_quat := euler_to_quaternion euler in
  track_quat <- track_quat_of direction "-Z" "Y" ;;
  set_rotation_euler (quat_to_euler track_quat) ;;
  (* Insert keyframes *)
  keyframe_insert "location" frame ;;
  keyframe_insert "rotation_euler" frame.

(** [setup_camera_tracking(camera, target, bone_name, frame_start,
    frame_end)], the camera being the one of the scene. *)
Definition setup_camera_tracking (target : Object F) (bone_name : option string)
    (frame_start frame_end : Z) : M F unit :=
  echo (SettingUp frame_start frame_end) ;;
  (* Clear existing animation data *)
  animation <- get_animation_data ;;
  match animation with
  | Some _ => animation_data_clear
  | None => ret tt
  end ;;
  (* Bake keyframes *)
  frames <- lift (py_range frame_start (frame_end + 1) FRAME_STEP) ;;
  for_ frames (bake_frame target bone_name) ;;
  count <- lift (py_floordiv (frame_end - frame_start) FRAME_STEP) ;;
  echo (Baked (count + 1)).

(** *** What one run leaves behind *)

(** The frames the loop visits: [range(frame_start, frame_end + 1, FRAME_STEP)]. *)
Definition sampled_frames (frame_start frame_end : Z) : list Z :=
  (fun i => frame_start + i * FRAME_STEP)
    <$> seqZ 0 (range_length frame_start (frame_end + 1) FRAME_STEP).

(** The position the host reports for the target while the scene is on
    [frame]. *)
Definition world_position (target : Object F) (bone_name : option string)
    (frame : Z) : Vec3 F :=
  match data target, bone_name with
  | ARMATURE pose_bones, Some name =>
      if truthy bone_name then
        match pose_bones !! name with
        | Some bone => translation (matmul (matrix_world target frame) (bone frame))
        | None => translation (matrix_world target frame)
        end
      else translation (matrix_world target frame)
  | _, _ => translation (matrix_world target frame)
  end.

Definition pose_location (target : Object F) (bone_name : option string)
    (frame : Z) : Vec3 F :=
  camera_position (world_position target bone_name frame).

Definition pose_direction (target : Object F) (bone_name : option string)
    (frame : Z) : Vec3 F :=
  look_direction (world_position target bone_name frame)
                 (pose_location target bone_name frame).

Definition pose_rotation (target : Object F) (bone_name : option string)
    (frame : Z) : Euler :=
  quat_to_euler (to_track_quat (pose_direction target bone_name frame) "-Z" "Y").

(** The host calls of one pass of the loop. *)
Definition frame_events (target : Object F) (bone_name : option string)
    (frame : Z) : list (Event F) :=
  [ FrameSet frame;
    ReadWorld frame (world_position target bone_name frame);
    TrackQuat (pose_direction target bone_name frame) "-Z" "Y";
    KeyframeInsert "location" frame;
    KeyframeInsert "rotation_euler" frame ].

(** The keys after the loop has visited [frames], starting from [ad]. *)
Definition bake_keys (target : Object F) (bone_name : option string)
    (frames : list Z) (ad : AnimData F) : AnimData F :=
  foldl (fun ad frame =>
           mkAnimData (<[frame := pose_location target bone_name frame]> (location_keys ad))
                      (<[frame := pose_rotation target bone_name frame]> (rotation_keys ad)))
        ad frames.

(** The key of a camera on a frame, if it has one. *)
Definition location_key (c : Camera F) (frame : Z) : option (Vec3 F) :=
  match animation_data c with
  | Some ad => location_keys ad !! frame
  | None => None
  end.

Definition rotation_key (c : Camera F) (frame : Z) : option Euler :=
  match animation_data c with
  | Some ad => rotation_keys ad !! frame
  | None => None
  end.

(** Calls that touch the playback or read the target. *)
Definition is_playback (e : Event F) : bool :=
  match e with
  | FrameSet _ | ReadWorld _ _ => true
  | _ => false
  end.

Definition is_keyframe_insert (e : Event F) : bool :=
  match e with
  | KeyframeInsert _ _ => true
  | _ => false
  end.

(** The calls of a whole run, after those already made. *)
Definition run_events (target : Object F) (bone_name : option string)
    (had_animation : bool) (frame_start frame_end : Z)
  : list (Event F) :=
  [Echo (SettingUp frame_start frame_end)]
  ++ (if had_animation then [AnimationDataClear] else [])
  ++ flat_map (frame_events target bone_name) (sampled_frames frame_start frame_end)
  ++ [Echo (Baked ((frame_end - frame_start) / FRAME_STEP + 1))].

End Tracker.

(** ** A reference host *)

(** 4x4 matrices as rows of rows, with the usual product; rotations are
    kept as the unevaluated calls that produce them. *)
Definition Vec4 (F : Type) : Type := F * F * F * F.
Definition Mat4 (F : Type) : Type := Vec4 (Vec4 F).

Definition dot4 {F} `{Num F} (a b : Vec4 F) : F :=
  let '(a0, a1, a2, a3) := a in
  let '(b0, b1, b2, b3) := b in
  fadd (fadd (fadd (fmul a0 b0) (fmul a1 b1)) (fmul a2 b2)) (fmul a3 b3).

Definition transpose4 {F} (m : Mat4 F) : Mat4 F :=
  let '((a00, a01, a02, a03), (a10, a11, a12, a13),
        (a20, a21, a22, a23), (a30, a31, a32, a33)) := m in
  ((a00, a10, a20, a30), (a01, a11, a21, a31),
   (a02, a12, a22, a32), (a03, a13, a23, a33)).

Definition row_times {F} `{Num F} (r : Vec4 F) (cols : Mat4 F) : Vec4 F :=
  let '(c0, c1, c2, c3) := cols in
  (dot4 r c0, dot4 r c1, dot4 r c2, dot4 r c3).

Definition mat4_mul {F} `{Num F} (a b : Mat4 F) : Mat4 F :=
  let '(r0, r1, r2, r3) := a in
  let cols := transpose4 b in
  (row_times r0 cols, row_times r1 cols, row_times r2 cols, row_times r3 cols).

(** The last column without its bottom entry. *)
Definition mat4_translation {F} (m : Mat4 F) : Vec3 F :=
  let '((_, _, _, x), (_, _, _, y), (_, _, _, z), _) := m in (x, y, z).

Inductive Rotation (F : Type) :=
| RestPose
| TrackTo (direction : Vec3 F) (track up : string)
| AsEuler (q : Rotation F)
| AsQuaternion (e : Rotation F).
Arguments RestPose {F}.
Arguments TrackTo {F} _ _ _.
Arguments AsEuler {F} _.
Arguments AsQuaternion {F} _.

#[export] Instance reference_mathutils (F : Type) `{Num F} : Mathutils F := {|
  Matrix := Mat4 F;
  Quaternion := Rotation F;
  Euler := Rotation F;
  matmul := mat4_mul;
  translation := mat4_translation;
  to_track_quat := TrackTo;
  quat_to_euler := AsEuler;
  euler_to_quaternion := AsQuaternion
|}.

(** Curves that hold a key on its own frame and leave the value alone
    elsewhere. *)
#[export] Instance stepped_fcurves (F : Type) `{Num F} : FCurves F := {|
  evaluate_location keys frame now := default now (keys !! frame);
  evaluate_rotation keys frame now := default now (keys !! frame)
|}.

Module Binary64.

(** [CAMERA_DISTANCE = 2.5  # Distance from target in meters] *)
Definition CAMERA_DISTANCE : float := 2.5%float.

(** [CAMERA_HEIGHT_OFFSET = 1.5  # Height above target center] *)
Definition CAMERA_HEIGHT_OFFSET : float := 1.5%float.

(** A matrix that only translates. *)
Definition placed_at (x y z : float) : Mat4 float :=
  ((1, 0, 0, x), (0, 1, 0, y), (0, 0, 1, z), (0, 0, 0, 1))%float.

(** An object that stays where it is. *)
Definition still (d : ObjectData float) (x y z : float) : Object float :=
  mkObject (F := float) d (fun _ => placed_at x y z).

(** An armature that steps from y = 0 to y = 4 on frame 6, with a hip
    bone one unit above its origin. *)
Definition walker : Object float :=
  mkObject (F := float)
    (ARMATURE (F := float) {[ "mixamorig:Hips"%string := fun _ : Z => placed_at 0 0 1 ]})
    (fun frame => placed_at 0 (if frame <? 6 then 0 else 4) 0).

(** A scene on frame 0 with a fresh camera. *)
Definition fresh : Host float :=
  mkHost (F := float) 0 (mkCamera (F := float) (0, 0, 0)%float RestPose None) [].

(** A scene whose camera still carries one key, on frame 3, from an
    earlier run. *)
Definition rehearsed : Host float :=
  mkHost (F := float) 7
    (mkCamera (F := float) (9, 9, 9)%float RestPose
       (Some (mkAnimData (F := float) {[ 3 := (9, 9, 9)%float ]} {[ 3 := RestPose ]})))
    [].

(** The script's routine with the script's constants. *)
Definition setup_camera_tracking := setup_camera_tracking CAMERA_DISTANCE CAMERA_HEIGHT_OFFSET.

End Binary64.

Module Exact.

(** The two constants as the fractions 5/2 and 3/2. *)
Definition CAMERA_DISTANCE : Q := 5 # 2.
Definition CAMERA_HEIGHT_OFFSET : Q := 3 # 2.

Definition placed_at (x y z : Q) : Mat4 Q :=
  ((1, 0, 0, x), (0, 1, 0, y), (0, 0, 1, z), (0, 0, 0, 1))%Q.

Definition still (d : ObjectData Q) (x y z : Q) : Object Q :=
  mkObject (F := Q) d (fun _ => placed_at x y z).

Definition fresh : Host Q :=
  mkHost (F := Q) 0 (mkCamera (F := Q) (0, 0, 0)%Q RestPose None) [].

End Exact.

(** * The command-line script around the tracker *)

(** The rest of the script is glue around host operators.  It is modelled
    with Python floats, as a computation on a [Session]: what the script
    can see of the Blender session it runs in, with every call into the
    host, every attribute assignment and every printed line appended to
    [calls] in the order they happen.  What the host and the file system
    answer (which files exist, what an import brings in, where a new
    camera is put) is a [World].  Host operators are taken to succeed. *)

Module Script.

(** [SAVE_NAME = "week2ex4_tiktok.blend"] *)
Definition SAVE_NAME : string := "week2ex4_tiktok.blend".

(** [TARGET_BONE_NAME = "mixamorig:Hips"  # Common Mixamo bone name] *)
Definition TARGET_BONE_NAME : string := "mixamorig:Hips".

(** [RADIANCE_FIELD_NODE_GROUP = "RadianceField"] *)
Definition RADIANCE_FIELD_NODE_GROUP : string := "RadianceField".

(** [pathlib] paths, kept as the expressions that build them. *)
Inductive Path :=
| PathOf (text : string)
| Cwd
| ScriptFile
| Join (p : Path) (name : string)
| Parent (p : Path)
| Resolved (p : Path).

(** [RADIANCE_FIELD_BLEND = Path(__file__).parent / "radiancefield.blend"] *)
Definition RADIANCE_FIELD_BLEND : Path := Join (Parent ScriptFile) "radiancefield.blend".

Inductive Colour := RED | GREEN | YELLOW | CYAN.

(** What an assignment or a method call is made on. *)
Inductive Ref :=
(** an attribute path below [bpy] *)
| Bpy (path : string)
(** the object a local variable of the script holds *)
| Var (variable : string)
(** an imported object, by its identity in the host *)
| Obj (ident : nat)
(** a modifier of such an object *)
| Modifier (ident : nat) (modifier : string)
| At (p : Path).

(** Values handed to the host or printed. *)
Inductive Value :=
| VStr (s : string)
| VInt (n : Z)
| VFloat (x : float)
| VPath (p : Path)
| VTuple (items : list Value)
| VRef (r : Ref)
(** an attribute as the host reports it back, [obj.name] *)
| VAttr (r : Ref) (attribute : string).

Inductive Call `{Mathutils float} :=
(** [typer.echo(text)] and [typer.secho(text, fg=..., bold=...)]; the
    text is the f-string as written, [args] the values of its fields. *)
| Say (text : string) (args : list Value) (fg : option Colour) (bold : bool)
(** [owner.attribute = value] *)
| Assign (owner : Ref) (attribute : string) (value : Value)
(** [bpy.ops.<name>(...)] *)
| Op (name : string) (kwargs : list (string * Value))
(** [owner.<name>(...)] *)
| Method (owner : Ref) (name : string) (kwargs : list (string * Value))
(** a call made by [setup_camera_tracking] *)
| Tracked (e : Event float).
Arguments Say {_} _ _ _ _.
Arguments Assign {_} _ _ _.
Arguments Op {_} _ _.
Arguments Method {_} _ _ _.
Arguments Tracked {_} _.

(** An object brought in by the FBX import. *)
Record SceneObject `{Mathutils float} := mkSceneObject {
  name : string;
  body : Object float
}.
Arguments mkSceneObject {_} _ _.
Arguments name {_} _.
Arguments body {_} _.

(** An object brought in by a PLY import: [o.type] and [o.name]. *)
Record PlyObject := mkPlyObject {
  ply_ident : nat;
  ply_type : string;
  ply_name : string
}.

Record World `{Mathutils float} := mkWorld {
  (** [path.exists()] *)
  path_exists : Path -> bool;
  (** [str(path)], [path.name] and [path.stem] *)
  path_str : Path -> string;
  path_name : Path -> string;
  path_stem : Path -> string;
  (** [sorted(directory.glob("*.ply"))] *)
  ply_files_in : Path -> list Path;
  (** [list(objects_after - objects_before)] around [fbx_import] *)
  fbx_objects : Path -> list SceneObject;
  (** the same around [ply_import] *)
  ply_objects : Path -> list PlyObject;
  (** whether appending from a blend file brings in a node group *)
  blend_has_group : Path -> string -> bool;
  (** where [camera_add] puts the new camera, and how it is turned *)
  camera_spawn : Vec3 float * Euler;
  (** the name the host gives a new modifier, from the names in use and
      the name asked for *)
  modifier_name : list string -> string -> string;
  (** [math.radians] *)
  radians : float -> float
}.
Arguments mkWorld {_} _ _ _ _ _ _ _ _ _ _ _.
Arguments path_exists {_} _ _.
Arguments path_str {_} _ _.
Arguments path_name {_} _ _.
Arguments path_stem {_} _ _.
Arguments ply_files_in {_} _ _.
Arguments fbx_objects {_} _ _.
Arguments ply_objects {_} _ _.
Arguments blend_has_group {_} _ _ _.
Arguments camera_spawn {_} _.
Arguments modifier_name {_} _ _ _.
Arguments radians {_} _ _.

Record Session `{Mathutils float} := mkSession {
  (** [bpy.context.mode] *)
  mode : string;
  (** the frame the playback is on *)
  playback : Z;
  (** [bpy.context.scene.camera] *)
  scene_camera : option (Camera float);
  (** the names in [bpy.data.node_groups] *)
  node_groups : gset string;
  (** the names of the modifiers of each imported object *)
  modifiers : gmap nat (list string);
  calls : list Call
}.
Arguments mkSession {_} _ _ _ _ _ _.
Arguments mode {_} _.
Arguments playback {_} _.
Arguments scene_camera {_} _.
Arguments node_groups {_} _.
Arguments modifiers {_} _.
Arguments calls {_} _.

Inductive Abort :=
(** [raise typer.Exit(code=...)] *)
| Exit (code : Z)
(** reading a local variable that was never assigned *)
| UnboundLocalError (variable : string)
| Uncaught (e : Exception).

Inductive Outcome (A : Type) :=
| Done (a : A)
| Stop (why : Abort).
Arguments Done {A} _.
Arguments Stop {A} _.

Definition Cmd `{Mathutils float} (A : Type) : Type :=
  Session -> Outcome A * Session.

Section Commands.
Context {MU : Mathutils float} {FC : FCurves float}.
Variable world : World.

#[local] Instance cmd_ret : MRet Cmd := fun A a s => (Done a, s).

#[local] Instance cmd_bind : MBind Cmd := fun A B k c s =>
  match c s with
  | (Done a, s') => k a s'
  | (Stop why, s') => (Stop why, s')
  end.

Definition stop {A} (why : Abort) : Cmd A := fun s => (Stop why, s).

Definition emit (c : Call) : Cmd unit :=
  fun s => (Done tt,
            mkSession (mode s) (playback s) (scene_camera s)
                      (node_groups s) (modifiers s) (calls s ++ [c])).

Definition echo (text : string) (args : list Value) : Cmd unit :=
  emit (Say text args None false).

Definition secho (text : string) (args : list Value) (fg : Colour) (bold : bool)
  : Cmd unit :=
  emit (Say text args (Some fg) bold).

Definition assign (owner : Ref) (attribute : string) (value : Value) : Cmd unit :=
  emit (Assign owner attribute value).

Definition op (name : string) (kwargs : list (string * Value)) : Cmd unit :=
  emit (Op name kwargs).

Definition method (owner : Ref) (name : string) (kwargs : list (string * Value))
  : Cmd unit :=
  emit (Method owner name kwargs).

(** ["=" * 50] *)
Definition rule : string := String.concat "" (replicate 50 "="%string).

Definition reset_scene : Cmd unit :=
  _ ← assign (Bpy "context.scene.render") "engine" (VStr "BLENDER_EEVEE");
  (* TikTok aspect ratio: 9:16 (vertical video) *)
  _ ← assign (Bpy "context.scene.render") "resolution_x" (VInt 1080);
  _ ← assign (Bpy "context.scene.render") "resolution_y" (VInt 1920);
  assign (Bpy "context.scene.render") "resolution_percentage" (VInt 100).

Definition get_mode : Cmd string := fun s => (Done (mode s), s).

Definition set_mode (m : string) : Cmd unit :=
  fun s => (Done tt,
            mkSession m (playback s) (scene_camera s)
                      (node_groups s) (modifiers s) (calls s)).

Definition set_scene_camera (cam : Camera float) : Cmd unit :=
  fun s => (Done tt,
            mkSession (mode s) (playback s) (Some cam)
                      (node_groups s) (modifiers s) (calls s)).

Definition ensure_object_mode : Cmd unit :=
  current ← get_mode;
  if negb (String.eqb current "OBJECT") then
    _ ← op "object.mode_set" [("mode"%string, VStr "OBJECT")];
    set_mode "OBJECT"
  else mret tt.

Definition import_fbx (fbx_path : Path) : Cmd (list SceneObject) :=
  if negb (path_exists world fbx_path) then
    _ ← secho "Error: FBX file not found: {fbx_path}" [VPath fbx_path] RED false;
    stop (Exit 1)
  else
    _ ← echo "Importing FBX: {fbx_path}" [VPath fbx_path];
    (* Import FBX (bpy 5.x: operator moved to bpy.ops.wm.fbx_import) *)
    _ ← op "wm.fbx_import" [("filepath"%string, VStr (path_str world fbx_path))];
    (* Get newly imported objects *)
    let imported_objects := fbx_objects world fbx_path in
    _ ← secho "✓ Imported {len(imported_objects)} objects"
              [VInt (Z.of_nat (length imported_objects))] GREEN false;
    mret imported_objects.

Fixpoint find_armature (imported_objects : list SceneObject) : option SceneObject :=
  match imported_objects with
  | [] => None
  | obj :: rest =>
      if type_is_armature (body obj) then Some obj else find_armature rest
  end.

(** [create_tiktok_camera(name)]; the new camera has no animation data
    and becomes the camera of the scene. *)
Definition create_tiktok_camera (name : string) : Cmd (Camera float) :=
  _ ← op "object.camera_add" [];
  let cam := mkCamera (camera_spawn world).1 (camera_spawn world).2 None in
  _ ← assign (Var "camera") "name" (VStr name);
  _ ← assign (Var "camera") "data.name" (VStr (name ++ "_data"));
  (* Camera settings for portrait video *)
  _ ← assign (Var "camera") "data.lens" (VInt 50);
  _ ← assign (Var "camera") "data.sensor_width" (VInt 36);
  _ ← assign (Var "camera") "data.sensor_height" (VFloat (36 * (16 / 9))%float);
  (* Set as active camera *)
  _ ← assign (Bpy "context.scene") "camera" (VRef (Var "camera"));
  _ ← set_scene_camera cam;
  mret cam.

(** The call [setup_camera_tracking(camera, target, bone_name,
    frame_start, frame_end)] as the script makes it: the routine runs on
    the frame the scene is on and on the given camera, which is the
    camera of the scene. *)
Definition tracking (cam : Camera float) (target : Object float)
    (bone_name : option string) (frame_start frame_end : Z) : Cmd unit :=
  fun s =>
    let '(result, host) :=
      setup_camera_tracking Binary64.CAMERA_DISTANCE Binary64.CAMERA_HEIGHT_OFFSET
        target bone_name frame_start frame_end
        (mkHost (playback s) cam []) in
    (match result with
     | Ok _ => Done tt
     | Raise e => Stop (Uncaught e)
     end,
     mkSession (mode s) (frame_current host) (Some (camera host))
               (node_groups s) (modifiers s)
               (calls s ++ (Tracked <$> trace host))).

Definition add_light (variable kind light_name : string) (where_ : Z * Z * Z)
    (energy : Z) (size : option Z) : Cmd unit :=
  _ ← op "object.light_add"
         [("type"%string, VStr kind);
          ("location"%string,
           VTuple [VInt where_.1.1; VInt where_.1.2; VInt where_.2])];
  _ ← assign (Var variable) "name" (VStr light_name);
  _ ← assign (Var variable) "data.energy" (VInt energy);
  match size with
  | Some n => assign (Var variable) "data.size" (VInt n)
  | None => mret tt
  end.

Definition add_studio_lighting : Cmd unit :=
  _ ← echo "Adding studio lighting" [];
  (* Key light *)
  _ ← add_light "key_light" "AREA" "KeyLight" (2, -2, 4) 200 (Some 2);
  (* Fill light *)
  _ ← add_light "fill_light" "AREA" "FillLight" (-2, -1, 2) 100 (Some 2);
  (* Rim light *)
  _ ← add_light "rim_light" "SPOT" "RimLight" (0, 2, 3) 150 None;
  secho "✓ Lighting setup complete" [] GREEN false.

Definition save_blend_file (output_path : option Path) : Cmd unit :=
  let output_path :=
    match output_path with
    | None => Join Cwd SAVE_NAME
    | Some p => p
    end in
  _ ← method (At (Parent output_path)) "mkdir"
         [("parents"%string, VInt 1); ("exist_ok"%string, VInt 1)];
  _ ← op "wm.save_as_mainfile" [("filepath"%string, VStr (path_str world output_path))];
  secho "✓ Saved: {output_path}" [VPath output_path] GREEN false.

(** The [create] command. *)
Definition create (fbx_file : Path) (output : option Path) (bone : string)
    (start_frame end_frame : Z) (no_lights : bool) : Cmd unit :=
  _ ← secho "🎬 TikTok Camera Setup" [] CYAN true;
  _ ← echo rule [];
  (* Step 1: Reset scene *)
  _ ← echo "1. Resetting scene..." [];
  _ ← reset_scene;
  _ ← ensure_object_mode;
  (* Step 2: Import FBX *)
  _ ← echo "2. Importing FBX: {fbx_file}" [VPath fbx_file];
  imported_objects ← import_fbx fbx_file;
  (* Step 3: Find armature *)
  _ ← echo "3. Looking for armature..." [];
  let armature := find_armature imported_objects in
  chosen ←
    match armature with
    | None =>
        _ ← secho "Warning: No armature found. Using first imported object as target."
                  [] YELLOW false;
        match imported_objects with
        | [] =>
            _ ← secho "Error: No objects imported!" [] RED false;
            stop (Exit 1)
        | target :: _ => mret (target, None)
        end
    | Some armature =>
        _ ← secho "✓ Found armature: {armature.name}" [VStr (name armature)] GREEN false;
        mret (armature, Some bone)
    end;
  let '(target, target_bone) := chosen in
  (* Step 4: Set frame range *)
  _ ← assign (Bpy "context.scene") "frame_start" (VInt start_frame);
  _ ← assign (Bpy "context.scene") "frame_end" (VInt end_frame);
  (* Step 5: Create camera *)
  _ ← echo "4. Creating TikTok-style camera..." [];
  cam ← create_tiktok_camera "TikTokCamera";
  (* Step 6: Setup tracking *)
  _ ← echo "5. Setting up camera tracking..." [];
  _ ← tracking cam (body target) target_bone start_frame end_frame;
  (* Step 7: Add lighting *)
  _ ← (if negb no_lights then
         _ ← echo "6. Adding studio lighting..." [];
         add_studio_lighting
       else echo "6. Skipping lights (--no-lights specified)" []);
  (* Step 8: Save file *)
  _ ← echo "7. Saving blend file..." [];
  _ ← save_blend_file output;
  _ ← echo rule [];
  _ ← secho "✨ Setup complete!" [] GREEN true;
  _ ← echo "Camera: {camera.name}" [VAttr (Var "camera") "name"];
  _ ← echo "Target: {target.name}" [VStr (name target)];
  _ ← (if truthy target_bone
       then echo "Tracking bone: {target_bone}" [VStr (default "" target_bone)]
       else mret tt);
  echo "Frame range: {start_frame} - {end_frame}" [VInt start_frame; VInt end_frame].

(** *** The point-cloud command *)

Definition import_ply (ply_path : Path) : Cmd (list PlyObject) :=
  if negb (path_exists world ply_path) then
    _ ← secho "Error: PLY file not found: {ply_path}" [VPath ply_path] RED false;
    stop (Exit 1)
  else
    _ ← echo "Importing PLY: {ply_path}" [VPath ply_path];
    _ ← op "wm.ply_import" [("filepath"%string, VStr (path_str world ply_path))];
    let imported := ply_objects world ply_path in
    _ ← secho "✓ Imported {len(imported)} object(s) from {ply_path.name}"
              [VInt (Z.of_nat (length imported)); VStr (path_name world ply_path)]
              GREEN false;
    mret imported.

Definition name_and_rotate_pointcloud (obj : PlyObject) (name : string)
    (rotation_deg : float * float * float) : Cmd unit :=
  _ ← assign (Obj (ply_ident obj)) "name" (VStr name);
  _ ← assign (Obj (ply_ident obj)) "rotation_euler"
         (VTuple [VFloat (radians world rotation_deg.1.1);
                  VFloat (radians world rotation_deg.1.2);
                  VFloat (radians world rotation_deg.2)]);
  secho "✓ Named '{name}', rotation={rotation_deg[0]}°, {rotation_deg[1]}°, {rotation_deg[2]}°"
        [VStr name; VFloat rotation_deg.1.1; VFloat rotation_deg.1.2;
         VFloat rotation_deg.2]
        GREEN false.

Definition get_node_groups : Cmd (gset string) :=
  fun s => (Done (node_groups s), s).

Definition set_node_groups (f : gset string -> gset string) : Cmd unit :=
  fun s => (Done tt,
            mkSession (mode s) (playback s) (scene_camera s)
                      (f (node_groups s)) (modifiers s) (calls s)).

Definition get_modifiers (obj : PlyObject) : Cmd (list string) :=
  fun s => (Done (default [] (modifiers s !! ply_ident obj)), s).

Definition set_modifiers (obj : PlyObject) (names : list string) : Cmd unit :=
  fun s => (Done tt,
            mkSession (mode s) (playback s) (scene_camera s) (node_groups s)
                      (<[ply_ident obj := names]> (modifiers s)) (calls s)).

(** [bpy.ops.wm.append(filepath=..., directory=..., filename=...)]: the
    node group is there afterwards when the blend file has it. *)
Definition wm_append (blend_path : Path) (filename : string) : Cmd unit :=
  _ ← op "wm.append"
         [("filepath"%string,
           VStr (path_str world blend_path ++ "/NodeTree/" ++ filename));
          ("directory"%string, VStr (path_str world blend_path ++ "/NodeTree/"));
          ("filename"%string, VStr filename)];
  if blend_has_group world blend_path filename
  then set_node_groups (union {[ filename ]})
  else mret tt.

(** Returns the node group, which its name stands for. *)
Definition append_radiance_field_node_group (blend_path : Path) : Cmd string :=
  if negb (path_exists world blend_path) then
    _ ← secho "Error: radiancefield.blend not found: {blend_path}"
              [VPath blend_path] RED false;
    stop (Exit 1)
  else
    (* Check if already appended *)
    loaded ← get_node_groups;
    if bool_decide (RADIANCE_FIELD_NODE_GROUP ∈ loaded) then
      _ ← echo "Node group '{RADIANCE_FIELD_NODE_GROUP}' already loaded."
               [VStr RADIANCE_FIELD_NODE_GROUP];
      mret RADIANCE_FIELD_NODE_GROUP
    else
      _ ← echo "Appending node group '{RADIANCE_FIELD_NODE_GROUP}' from {blend_path.name}"
               [VStr RADIANCE_FIELD_NODE_GROUP; VStr (path_name world blend_path)];
      _ ← wm_append blend_path RADIANCE_FIELD_NODE_GROUP;
      loaded ← get_node_groups;
      if negb (bool_decide (RADIANCE_FIELD_NODE_GROUP ∈ loaded)) then
        _ ← secho "Error: Could not find node group '{RADIANCE_FIELD_NODE_GROUP}' after append."
                  [VStr RADIANCE_FIELD_NODE_GROUP] RED false;
        stop (Exit 1)
      else
        _ ← secho "✓ Appended node group '{RADIANCE_FIELD_NODE_GROUP}'"
                  [VStr RADIANCE_FIELD_NODE_GROUP] GREEN false;
        mret RADIANCE_FIELD_NODE_GROUP.

(** [obj.modifiers.new(name=..., type=...)]: the new modifier, by the
    name the host gave it. *)
Definition modifiers_new (obj : PlyObject) (name kind : string) : Cmd string :=
  _ ← method (Obj (ply_ident obj)) "modifiers.new"
         [("name"%string, VStr name); ("type"%string, VStr kind)];
  existing ← get_modifiers obj;
  let given := modifier_name world existing name in
  _ ← set_modifiers obj (existing ++ [given]);
  mret given.

(** [obj.modifiers.get(name)] *)
Definition modifiers_get (obj : PlyObject) (name : string) : Cmd (option string) :=
  existing ← get_modifiers obj;
  mret (List.find (String.eqb name) existing).

Definition apply_radiance_field_to_object (obj : PlyObject) (node_group : string)
  : Cmd unit :=
  modifier ← modifiers_new obj "GeometryNodes" "NODES";
  _ ← assign (Modifier (ply_ident obj) modifier) "node_group"
         (VRef (Bpy ("data.node_groups['" ++ node_group ++ "']")));
  secho "✓ Applied '{RADIANCE_FIELD_NODE_GROUP}' geometry nodes to '{obj.name}'"
        [VStr RADIANCE_FIELD_NODE_GROUP; VAttr (Obj (ply_ident obj)) "name"]
        GREEN false.

Definition bbox_value (bbox : float * float * float) : Value :=
  VTuple [VFloat bbox.1.1; VFloat bbox.1.2; VFloat bbox.2].

Definition set_bounding_box (obj : PlyObject) (bbox : float * float * float)
  : Cmd unit :=
  modifier ← modifiers_get obj "GeometryNodes";
  match modifier with
  | None =>
      secho "Warning: No GeometryNodes modifier on '{obj.name}'"
            [VAttr (Obj (ply_ident obj)) "name"] YELLOW false
  | Some modifier =>
      _ ← assign (Modifier (ply_ident obj) modifier) "['Socket_3']" (bbox_value bbox);
      secho "✓ Bounding box set to {bbox} on '{obj.name}'"
            [bbox_value bbox; VAttr (Obj (ply_ident obj)) "name"] GREEN false
  end.

(** [next((o for o in imported if o.type == "MESH"), imported[0])] *)
Definition first_mesh (first : PlyObject) (imported : list PlyObject) : PlyObject :=
  default first (List.find (fun o => String.eqb (ply_type o) "MESH") imported).

(** One pass of the loop over the files; [bbox] is the local variable of
    that name, [None] while it is unassigned. *)
Definition import_one (total : nat) (rot : float * float * float)
    (node_group : string) (bounding_box : option (list float))
    (i : nat) (ply_file : Path) (bbox : option (float * float * float))
  : Cmd (option (float * float * float)) :=
  _ ← echo "3. Importing pointcloud {i + 1}/{len(ply_files)}: {ply_file.name}"
           [VInt (Z.of_nat i + 1); VInt (Z.of_nat total);
            VStr (path_name world ply_file)];
  imported ← import_ply ply_file;
  match imported with
  | [] =>
      _ ← secho "Warning: No objects imported from {ply_file.name}"
                [VStr (path_name world ply_file)] YELLOW false;
      mret bbox
  | first :: _ =>
      (* Use the first (and typically only) imported mesh object *)
      let obj := first_mesh first imported in
      _ ← echo "4. Naming and rotating '{obj.name}'..." [VStr (ply_name obj)];
      let obj_name :=
        if Nat.eqb total 1 then "Pointcloud"%string
        else ("Pointcloud_" ++ path_stem world ply_file)%string in
      _ ← name_and_rotate_pointcloud obj obj_name rot;
      _ ← echo "5. Applying RadianceField geometry nodes..." [];
      _ ← apply_radiance_field_to_object obj node_group;
      _ ← echo "6. Setting bounding box..." [];
      bbox ←
        match bounding_box with
        | Some [b0; b1; b2] => mret (b0, b1, b2)
        | Some _ =>
            _ ← secho "Error: --bounding-box requires exactly 3 values (X Y Z)."
                      [] RED false;
            stop (Exit 1)
        | None => mret (4, 4, 8)%float
        end;
      _ ← set_bounding_box obj bbox;
      mret (Some bbox)
  end.

(** [for i, ply_file in enumerate(ply_files): ...] *)
Fixpoint import_each (total : nat) (rot : float * float * float)
    (node_group : string) (bounding_box : option (list float))
    (i : nat) (ply_files : list Path) (bbox : option (float * float * float))
  : Cmd (option (float * float * float)) :=
  match ply_files with
  | [] => mret bbox
  | ply_file :: rest =>
      bbox ← import_one total rot node_group bounding_box i ply_file bbox;
      import_each total rot node_group bounding_box (S i) rest bbox
  end.

(** The [import-pointcloud] command. *)
Definition import_pointcloud_cmd (pointcloud pointcloud_dir : option Path)
    (rotation : option (list float)) (output : option Path)
    (radiance_field_blend : Path) (bounding_box : option (list float))
  : Cmd unit :=
  _ ← secho "☁️  Pointcloud Import" [] CYAN true;
  _ ← echo rule [];
  (* Collect files to import *)
  ply_files ←
    match pointcloud, pointcloud_dir with
    | None, None =>
        _ ← secho "Error: Provide --pointcloud or --pointcloud-dir." [] RED false;
        stop (Exit 1)
    | Some pointcloud, _ => mret [pointcloud]
    | None, Some pointcloud_dir =>
        let pointcloud_dir := Resolved pointcloud_dir in
        match ply_files_in world pointcloud_dir with
        | [] =>
            _ ← secho "Error: No .ply files found in {pointcloud_dir}"
                      [VPath pointcloud_dir] RED false;
            stop (Exit 1)
        | ply_files =>
            _ ← echo "Found {len(ply_files)} .ply file(s) in {pointcloud_dir}"
                     [VInt (Z.of_nat (length ply_files)); VPath pointcloud_dir];
            mret ply_files
        end
    end;
  (* Parse rotation (defaults to 0, 0, 0). +90° X base offset corrects
     PLY Z-forward → Z-up. *)
  rot ←
    match rotation with
    | Some [r0; r1; r2] => mret ((r0 + 90)%float, r1, r2)
    | Some _ =>
        _ ← secho "Error: --rotation requires exactly 3 values (X Y Z)." [] RED false;
        stop (Exit 1)
    | None => mret (90, 0, 0)%float
    end;
  _ ← echo "1. Resetting scene..." [];
  _ ← reset_scene;
  _ ← ensure_object_mode;
  _ ← echo "2. Appending RadianceField node group from {radiance_field_blend.name}..."
           [VStr (path_name world radiance_field_blend)];
  node_group ← append_radiance_field_node_group radiance_field_blend;
  bbox ← import_each (length ply_files) rot node_group bounding_box 0 ply_files None;
  _ ← echo "7. Saving blend file..." [];
  _ ← save_blend_file output;
  _ ← echo rule [];
  _ ← secho "✨ Pointcloud import complete!" [] GREEN true;
  _ ← echo "Imported {len(ply_files)} pointcloud(s) with rotation {rot}"
           [VInt (Z.of_nat (length ply_files)); bbox_value rot];
  _ ← match bbox with
      | Some bbox => echo "Bounding box: {bbox}" [bbox_value bbox]
      | None => stop (UnboundLocalError "bbox")
      end;
  echo "Open the .blend in Blender to verify the GeometryNodes modifier." [].

(** *** Reading a list of calls *)

(** The host operators called, in order. *)
Definition operators (cs : list Call) : list string :=
  omap (fun c => match c with Op name _ => Some name | _ => None end) cs.

(** The session after some more calls. *)
Definition extend (s : Session) (more : list Call) : Session :=
  mkSession (mode s) (playback s) (scene_camera s) (node_groups s) (modifiers s)
            (calls s ++ more).

(** A command all of whose calls, from any session, satisfy [P], and
    which stops only for a reason that satisfies [Q]. *)
Definition behaves {A} (P : Call -> Prop) (Q : Abort -> Prop) (c : Cmd A) : Prop :=
  forall s, exists more,
    calls (c s).2 = calls s ++ more /\ Forall P more /\
    forall why, (c s).1 = Stop why -> Q why.

(** Whether a call only prints. *)
Definition prints (c : Call) : bool :=
  match c with
  | Say _ _ _ _ => true
  | _ => false
  end.

End Commands.

(** *** A small world to run the commands in *)

(** Every file exists; an FBX file brings in a cube at (1, 2, 3) and the
    walking armature; a PLY file brings in an empty and a mesh; the blend
    file has the node group; the host gives a modifier the name asked
    for. *)
Definition studio : World (H := reference_mathutils float) :=
  mkWorld (H := reference_mathutils float)
    (fun _ => true)
    (fun _ => "/tmp/scene"%string)
    (fun _ => "Hydrant.ply"%string)
    (fun _ => "Hydrant"%string)
    (fun _ => [PathOf "a.ply"; PathOf "b.ply"])
    (fun _ => [mkSceneObject (H := reference_mathutils float)
                 "Cube" (Binary64.still OTHER 1 2 3);
               mkSceneObject (H := reference_mathutils float)
                 "Armature" Binary64.walker])
    (fun _ => [mkPlyObject 7 "EMPTY" "Origin"; mkPlyObject 8 "MESH" "Hydrant"])
    (fun _ _ => true)
    ((0, 0, 0)%float, RestPose)
    (fun _ asked => asked)
    (fun x => (x * 0x1.1df46a2529d39p-6)%float).

(** The same with PLY files that bring in nothing. *)
Definition barren : World (H := reference_mathutils float) :=
  mkWorld (H := reference_mathutils float)
    (path_exists studio) (path_str studio) (path_name studio) (path_stem studio)
    (ply_files_in studio) (fbx_objects studio) (fun _ => [])
    (blend_has_group studio) (camera_spawn studio) (modifier_name studio)
    (radians studio).

(** A session in object mode, on frame 1, with nothing in it. *)
Definition blank : Session (H := reference_mathutils float) :=
  mkSession (H := reference_mathutils float) "OBJECT" 1 None ∅ ∅ [].

End Script.

(** * Properties *)

(** ** The sampled frames *)

Lemma range_length_step (start stop : Z) :
  range_length start stop FRAME_STEP =
  if start <? stop then (stop - start - 1) / FRAME_STEP + 1 else 0.
Proof. reflexivity. Qed.

Lemma range_length_nonneg (frame_start frame_end : Z) :
  0 <= range_length frame_start (frame_end + 1) FRAME_STEP.
Proof.
  rewrite range_length_step. unfold FRAME_STEP.
  destruct (Z.ltb_spec frame_start (frame_end + 1)); [|lia].
  assert (0 <= (frame_end + 1 - frame_start - 1) / 5) by (apply Z.div_pos; lia).
  lia.
Qed.

Lemma sampled_frames_length (frame_start frame_end : Z) :
  frame_start <= frame_end ->
  Z.of_nat (length (sampled_frames frame_start frame_end)) =
  (frame_end - frame_start) / FRAME_STEP + 1.
Proof.
  intros Hle. unfold sampled_frames.
  rewrite length_fmap, length_seqZ, range_length_step.
  destruct (Z.ltb_spec frame_start (frame_end + 1)); [|lia].
  replace (frame_end + 1 - frame_start - 1) with (frame_end - frame_start) by lia.
  assert (0 <= (frame_end - frame_start) / FRAME_STEP)
    by (apply Z.div_pos; unfold FRAME_STEP; lia).
  lia.
Qed.

Lemma sampled_frames_reversed (frame_start frame_end : Z) :
  frame_end < frame_start -> sampled_frames frame_start frame_end = [].
Proof.
  intros Hlt. unfold sampled_frames. rewrite range_length_step.
  destruct (Z.ltb_spec frame_start (frame_end + 1)); [lia|].
  by rewrite seqZ_nil.
Qed.

Lemma in_sampled_frames (frame_start frame_end frame : Z) :
  frame ∈ sampled_frames frame_start frame_end <->
  frame_start <= frame <= frame_end /\ (frame - frame_start) mod FRAME_STEP = 0.
Proof.
  unfold sampled_frames. rewrite list_elem_of_fmap.
  setoid_rewrite elem_of_seqZ. rewrite range_length_step. unfold FRAME_STEP.
  split.
  - intros [i [-> Hi]].
    destruct (Z.ltb_spec frame_start (frame_end + 1)); [|lia].
    replace (frame_start + i * 5 - frame_start) with (i * 5) by lia.
    rewrite Z.mod_mul by lia.
    assert (i <= (frame_end + 1 - frame_start - 1) / 5) by lia.
    assert (5 * ((frame_end + 1 - frame_start - 1) / 5) <= frame_end + 1 - frame_start - 1)
      by (apply Z.mul_div_le; lia).
    lia.
  - intros [[Hlo Hhi] Hmod].
    exists ((frame - frame_start) / 5).
    pose proof (Z.div_mod (frame - frame_start) 5 ltac:(lia)) as Hdm.
    rewrite Hmod in Hdm.
    destruct (Z.ltb_spec frame_start (frame_end + 1)); [|lia].
    assert (0 <= (frame - frame_start) / 5) by (apply Z.div_pos; lia).
    assert ((frame - frame_start) / 5 <= (frame_end + 1 - frame_start - 1) / 5)
      by (apply Z.div_le_mono; lia).
    lia.
Qed.

Lemma sampled_frames_increasing (frame_start frame_end : Z) :
  StronglySorted Z.lt (sampled_frames frame_start frame_end).
Proof.
  unfold sampled_frames.
  generalize (range_length frame_start (frame_end + 1) FRAME_STEP). intros n.
  unfold seqZ. rewrite <- list_fmap_compose.
  generalize (Z.to_nat n). clear n. intros n. generalize 0%nat.
  induction n as [|n IH]; intros k; simpl; constructor.
  - apply IH.
  - apply Forall_forall. intros x Hx.
    apply list_elem_of_fmap in Hx as [j [-> Hj]].
    apply elem_of_seq in Hj. simpl. unfold FRAME_STEP. lia.
Qed.

Lemma sampled_frames_NoDup (frame_start frame_end : Z) :
  NoDup (sampled_frames frame_start frame_end).
Proof.
  pose proof (sampled_frames_increasing frame_start frame_end) as Hs.
  induction Hs as [|x l Hs IH Hall]; constructor; [|done].
  intros Hin. rewrite Forall_forall in Hall. specialize (Hall _ Hin). lia.
Qed.

(** ** One run of the routine *)

Section Runs.
Context {F : Type} {NF : Num F} {MU : Mathutils F} {FC : FCurves F}.
Variable CAMERA_DISTANCE : F.
Variable CAMERA_HEIGHT_OFFSET : F.
Variable target : Object F.
Variable bone_name : option string.

Local Abbreviation position := (world_position target bone_name).
Local Abbreviation loc_of := (pose_location CAMERA_DISTANCE CAMERA_HEIGHT_OFFSET target bone_name).
Local Abbreviation dir_of := (pose_direction CAMERA_DISTANCE CAMERA_HEIGHT_OFFSET target bone_name).
Local Abbreviation rot_of := (pose_rotation CAMERA_DISTANCE CAMERA_HEIGHT_OFFSET target bone_name).
Local Abbreviation events_of := (frame_events CAMERA_DISTANCE CAMERA_HEIGHT_OFFSET target bone_name).
Local Abbreviation keys_of := (bake_keys CAMERA_DISTANCE CAMERA_HEIGHT_OFFSET target bone_name).
Local Abbreviation bake := (bake_frame CAMERA_DISTANCE CAMERA_HEIGHT_OFFSET target bone_name).
Local Abbreviation calls_of := (run_events CAMERA_DISTANCE CAMERA_HEIGHT_OFFSET target bone_name).

Ltac run := unfold bind, ret, raise, lift, record, update_camera, echo,
  current_frame, animated, tuple_translation, get_location, set_location,
  get_rotation_euler, set_rotation_euler, get_animation_data,
  animation_data_clear, track_quat_of; simpl.

(** Reading the target never raises: it returns the position of the
    frame the scene is on and leaves one [ReadWorld] call behind. *)
Lemma target_location_run (st : Host F) :
  target_location target bone_name st =
  (Ok (position (frame_current st)),
   mkHost (frame_current st) (camera st)
          (trace st ++ [ReadWorld (frame_current st) (position (frame_current st))])).
Proof.
  unfold target_location, world_position, type_is_armature, get_target_world_location.
  destruct (data target) as [bones|], bone_name as [name|]; simpl; try by run.
  destruct (negb (String.eqb name "")); [|by run].
  destruct (bones !! name); by run.
Qed.

(** One pass of the loop: the scene is on [frame], the camera carries the
    pose of that frame, and both of its keys at [frame] hold it. *)
Lemma bake_frame_run (frame : Z) (st : Host F) :
  bake frame st =
  (Ok tt,
   mkHost frame
     (mkCamera (loc_of frame) (rot_of frame)
        (Some (keys_of [frame] (default (mkAnimData ∅ ∅) (animation_data (camera st))))))
     (trace st ++ events_of frame)).
Proof.
  unfold bake_frame.
  unfold bind at 1. unfold frame_set at 1.
  unfold bind at 1. rewrite target_location_run.
  destruct st as [now [loc rot [ad|]] calls]; unfold keyframe_insert; run;
    unfold pose_rotation, pose_direction, pose_location, frame_events, bake_keys;
    simpl; rewrite <- !app_assoc; reflexivity.
Qed.

Lemma bake_keys_app (frames frames' : list Z) (ad : AnimData F) :
  keys_of (frames ++ frames') ad = keys_of frames' (keys_of frames ad).
Proof. apply foldl_app. Qed.

(** The whole loop. *)
Lemma for_bake_run (frames : list Z) (st : Host F) :
  for_ frames bake st =
  (Ok tt,
   match frames with
   | [] => st
   | _ :: _ =>
       mkHost (List.last frames 0)
         (mkCamera (loc_of (List.last frames 0)) (rot_of (List.last frames 0))
            (Some (keys_of frames (default (mkAnimData ∅ ∅) (animation_data (camera st))))))
         (trace st ++ flat_map events_of frames)
   end).
Proof.
  revert st. induction frames as [|frame frames IH]; intros st; [reflexivity|].
  cbn [for_]. unfold bind at 1. rewrite bake_frame_run, IH.
  destruct frames as [|frame' frames].
  - cbn [flat_map List.last]. by rewrite app_nil_r.
  - cbn [trace camera animation_data default from_option].
    rewrite <- app_assoc. reflexivity.
Qed.

(** The routine returns for every pair of frames, and this is the scene
    it leaves. *)
Lemma setup_camera_tracking_run (frame_start frame_end : Z) (st : Host F) :
  setup_camera_tracking CAMERA_DISTANCE CAMERA_HEIGHT_OFFSET
    target bone_name frame_start frame_end st =
  (Ok tt,
   let frames := sampled_frames frame_start frame_end in
   let calls :=
     trace st ++ calls_of (bool_decide (is_Some (animation_data (camera st))))
                            frame_start frame_end in
   match frames with
   | [] =>
       mkHost (frame_current st)
         (mkCamera (location (camera st)) (rotation_euler (camera st)) None)
         calls
   | _ :: _ =>
       mkHost (List.last frames 0)
         (mkCamera (loc_of (List.last frames 0)) (rot_of (List.last frames 0))
            (Some (keys_of frames (mkAnimData ∅ ∅))))
         calls
   end).
Proof.
  unfold setup_camera_tracking, run_events.
  change (py_range frame_start (frame_end + 1) FRAME_STEP)
    with (Ok (sampled_frames frame_start frame_end)).
  change (py_floordiv (frame_end - frame_start) FRAME_STEP)
    with (Ok ((frame_end - frame_start) / FRAME_STEP)).
  destruct st as [now [loc rot [ad|]] calls]; run;
    rewrite for_bake_run;
    destruct (sampled_frames frame_start frame_end) as [|frame frames];
    run; rewrite <- ?app_assoc; reflexivity.
Qed.

(** After the loop a frame it visited holds the pose of that frame, and
    every other frame holds what it held before. *)
Lemma bake_keys_location (frames : list Z) (ad : AnimData F) (frame : Z) :
  location_keys (keys_of frames ad) !! frame =
  if bool_decide (frame ∈ frames) then Some (loc_of frame)
  else location_keys ad !! frame.
Proof.
  revert ad. induction frames as [|x frames IH]; intros ad; [reflexivity|].
  change (keys_of (x :: frames) ad) with (keys_of frames (keys_of [x] ad)).
  rewrite IH. cbn [bake_keys foldl location_keys].
  destruct (bool_decide_reflect (frame ∈ frames)) as [Hin|Hout].
  - rewrite bool_decide_eq_true_2; [done | by right].
  - destruct (decide (x = frame)) as [->|Hne].
    + rewrite lookup_insert_eq, bool_decide_eq_true_2; [done | by left].
    + rewrite lookup_insert_ne by done.
      rewrite bool_decide_eq_false_2; [done|].
      rewrite elem_of_cons. by intros [?|?].
Qed.

Lemma bake_keys_rotation (frames : list Z) (ad : AnimData F) (frame : Z) :
  rotation_keys (keys_of frames ad) !! frame =
  if bool_decide (frame ∈ frames) then Some (rot_of frame)
  else rotation_keys ad !! frame.
Proof.
  revert ad. induction frames as [|x frames IH]; intros ad; [reflexivity|].
  change (keys_of (x :: frames) ad) with (keys_of frames (keys_of [x] ad)).
  rewrite IH. cbn [bake_keys foldl rotation_keys].
  destruct (bool_decide_reflect (frame ∈ frames)) as [Hin|Hout].
  - rewrite bool_decide_eq_true_2; [done | by right].
  - destruct (decide (x = frame)) as [->|Hne].
    + rewrite lookup_insert_eq, bool_decide_eq_true_2; [done | by left].
    + rewrite lookup_insert_ne by done.
      rewrite bool_decide_eq_false_2; [done|].
      rewrite elem_of_cons. by intros [?|?].
Qed.

(** Starting from no keys, the loop leaves one key per visited frame in
    each table. *)
Lemma bake_keys_size (frames : list Z) :
  NoDup frames ->
  size (location_keys (keys_of frames (mkAnimData ∅ ∅))) = length frames /\
  size (rotation_keys (keys_of frames (mkAnimData ∅ ∅))) = length frames.
Proof.
  intros Hnd.
  assert (dom (location_keys (keys_of frames (mkAnimData ∅ ∅))) = list_to_set frames
          /\ dom (rotation_keys (keys_of frames (mkAnimData ∅ ∅))) = list_to_set frames)
    as [Hl Hr].
  { split; apply set_eq; intros k;
      rewrite elem_of_dom, elem_of_list_to_set;
      [rewrite bake_keys_location | rewrite bake_keys_rotation];
      destruct (bool_decide_reflect (k ∈ frames)); cbn [location_keys rotation_keys];
      rewrite ?lookup_empty; split; intros Hk; try done;
      by destruct Hk. }
  rewrite <- !size_dom, Hl, Hr. split; by apply size_list_to_set.
Qed.

(** *** The calls of a run *)

Lemma run_trace (frame_start frame_end : Z) (st : Host F) :
  trace (setup_camera_tracking CAMERA_DISTANCE CAMERA_HEIGHT_OFFSET
           target bone_name frame_start frame_end st).2 =
  trace st ++ calls_of (bool_decide (is_Some (animation_data (camera st))))
                         frame_start frame_end.
Proof.
  rewrite setup_camera_tracking_run. cbn [snd].
  by destruct (sampled_frames frame_start frame_end).
Qed.

Lemma run_calls (frame_start frame_end : Z) (st : Host F) (calls : list (Event F)) :
  trace (setup_camera_tracking CAMERA_DISTANCE CAMERA_HEIGHT_OFFSET
           target bone_name frame_start frame_end st).2 = trace st ++ calls ->
  calls = calls_of (bool_decide (is_Some (animation_data (camera st))))
                     frame_start frame_end.
Proof. rewrite run_trace. intros Heq. by apply app_inv_head in Heq. Qed.

Lemma elem_of_flat_map_events (e : Event F) (frames : list Z) :
  e ∈ flat_map events_of frames <->
  exists frame, frame ∈ frames /\ e ∈ events_of frame.
Proof.
  rewrite list_elem_of_In, in_flat_map.
  by setoid_rewrite list_elem_of_In.
Qed.

Lemma elem_of_run_events (e : Event F) (had : bool) (frame_start frame_end : Z) :
  e ∈ calls_of had frame_start frame_end <->
  e = Echo (SettingUp frame_start frame_end)
  \/ (had = true /\ e = AnimationDataClear)
  \/ (exists frame, frame ∈ sampled_frames frame_start frame_end /\ e ∈ events_of frame)
  \/ e = Echo (Baked ((frame_end - frame_start) / FRAME_STEP + 1)).
Proof.
  unfold run_events.
  rewrite !elem_of_app, elem_of_flat_map_events, !list_elem_of_singleton.
  destruct had; [rewrite list_elem_of_singleton | rewrite elem_of_nil];
    intuition congruence.
Qed.

(** Every read of the target happens on a sampled frame, while the scene
    is on that frame, and sees the target's position there. *)
Lemma read_in_run (had : bool) (frame_start frame_end frame : Z) (T : Vec3 F) :
  ReadWorld frame T ∈ calls_of had frame_start frame_end <->
  frame ∈ sampled_frames frame_start frame_end /\ T = position frame.
Proof.
  rewrite elem_of_run_events. unfold frame_events. split.
  - intros [?|[[_ ?]|[[f [Hf He]]|?]]]; try done.
    rewrite !elem_of_cons, elem_of_nil in He.
    destruct He as [?|[He|[?|[?|[?|[]]]]]]; try done.
    by injection He as -> ->.
  - intros [Hf ->]. right; right; left. exists frame. split; [done|].
    rewrite !elem_of_cons. auto.
Qed.

(** Every direction handed to [to_track_quat] is the one of a sampled
    frame. *)
Lemma track_in_run (had : bool) (frame_start frame_end : Z)
    (direction : Vec3 F) (track up : string) :
  TrackQuat direction track up ∈ calls_of had frame_start frame_end ->
  exists frame, frame ∈ sampled_frames frame_start frame_end /\
                direction = dir_of frame.
Proof.
  rewrite elem_of_run_events. unfold frame_events.
  intros [?|[[_ ?]|[[f [Hf He]]|?]]]; try done.
  rewrite !elem_of_cons, elem_of_nil in He.
  destruct He as [?|[?|[He|[?|[?|[]]]]]]; try done.
  exists f. split; [done|]. by injection He.
Qed.

Lemma playback_calls (had : bool) (frame_start frame_end : Z) :
  List.filter is_playback (calls_of had frame_start frame_end) =
  flat_map (fun frame => [FrameSet frame; ReadWorld frame (position frame)])
           (sampled_frames frame_start frame_end).
Proof.
  unfold run_events. rewrite !List.filter_app.
  replace (List.filter is_playback (if had then [AnimationDataClear] else []))
    with (@nil (Event F)) by (by destruct had).
  cbn [List.filter is_playback app]. rewrite app_nil_r.
  induction (sampled_frames frame_start frame_end) as [|frame frames IH]; [done|].
  cbn [flat_map]. rewrite List.filter_app, IH. reflexivity.
Qed.

Lemma keyframe_calls (had : bool) (frame_start frame_end : Z) :
  List.filter is_keyframe_insert (calls_of had frame_start frame_end) =
  flat_map (fun frame => [KeyframeInsert "location" frame;
                          KeyframeInsert "rotation_euler" frame])
           (sampled_frames frame_start frame_end).
Proof.
  unfold run_events. rewrite !List.filter_app.
  replace (List.filter is_keyframe_insert (if had then [AnimationDataClear] else []))
    with (@nil (Event F)) by (by destruct had).
  cbn [List.filter is_keyframe_insert app]. rewrite app_nil_r.
  induction (sampled_frames frame_start frame_end) as [|frame frames IH]; [done|].
  cbn [flat_map]. rewrite List.filter_app, IH. reflexivity.
Qed.

(** The keys of the camera after a run, whatever it carried before. *)
Lemma run_location_key (frame_start frame_end : Z) (st : Host F) (frame : Z) :
  location_key (camera (setup_camera_tracking CAMERA_DISTANCE CAMERA_HEIGHT_OFFSET
                          target bone_name frame_start frame_end st).2) frame =
  if bool_decide (frame ∈ sampled_frames frame_start frame_end)
  then Some (loc_of frame) else None.
Proof.
  rewrite setup_camera_tracking_run. cbn [snd]. unfold location_key.
  destruct (sampled_frames frame_start frame_end) as [|f frames] eqn:E.
  - cbn [camera animation_data]. rewrite bool_decide_eq_false_2; [done|].
    apply not_elem_of_nil.
  - cbn [camera animation_data]. rewrite bake_keys_location.
    cbn [location_keys]. by rewrite lookup_empty.
Qed.

Lemma run_rotation_key (frame_start frame_end : Z) (st : Host F) (frame : Z) :
  rotation_key (camera (setup_camera_tracking CAMERA_DISTANCE CAMERA_HEIGHT_OFFSET
                          target bone_name frame_start frame_end st).2) frame =
  if bool_decide (frame ∈ sampled_frames frame_start frame_end)
  then Some (rot_of frame) else None.
Proof.
  rewrite setup_camera_tracking_run. cbn [snd]. unfold rotation_key.
  destruct (sampled_frames frame_start frame_end) as [|f frames] eqn:E.
  - cbn [camera animation_data]. rewrite bool_decide_eq_false_2; [done|].
    apply not_elem_of_nil.
  - cbn [camera animation_data]. rewrite bake_keys_rotation.
    cbn [rotation_keys]. by rewrite lookup_empty.
Qed.

End Runs.

(** ** Camera position *)



(** ** How many frames are baked *)



(** ** Reversed ranges *)

(** C4: for [frame_end < frame_start] a run returns without raising,
    makes no [keyframe_insert] call and leaves the camera without any
    key. *)
Theorem reversed_range_bakes_nothing
    (F : Type) (NF : Num F) (MU : Mathutils F) (FC : FCurves F)
    (distance height_offset : F)
    (target : Object F) (bone_name : option string)
    (frame_start frame_end : Z) (st : Host F) :
  frame_end < frame_start ->
  let run := setup_camera_tracking distance height_offset
               target bone_name frame_start frame_end st in
  run.1 = Ok tt /\
  (exists calls, trace run.2 = trace st ++ calls /\
                 List.filter is_keyframe_insert calls = []) /\
  animation_data (camera run.2) = None /\
  (forall frame, location_key (camera run.2) frame = None /\
                 rotation_key (camera run.2) frame = None).
Proof.
  intros Hlt run. subst run.
  pose proof (sampled_frames_reversed frame_start frame_end Hlt) as Hnil.
  split; [by rewrite setup_camera_tracking_run|]. split; [|split].
  - eexists. split; [apply run_trace|]. by rewrite keyframe_calls, Hnil.
  - rewrite setup_camera_tracking_run. cbn [snd]. by rewrite Hnil.
  - intros frame. rewrite run_location_key, run_rotation_key, Hnil.
    rewrite bool_decide_eq_false_2; [done | apply not_elem_of_nil].
Qed.

(** The walking armature, frames 10 down to 1, on a camera that carried
    a key. *)
Lemma reversed_range_bakes_nothing_witness :
  let run := Binary64.setup_camera_tracking
               Binary64.walker (Some "mixamorig:Hips"%string) 10 1 Binary64.rehearsed in
  run.1 = Ok tt /\
  (exists calls, trace run.2 = trace Binary64.rehearsed ++ calls /\
                 List.filter is_keyframe_insert calls = []) /\
  animation_data (camera run.2) = None /\
  (forall frame, location_key (camera run.2) frame = None /\
                 rotation_key (camera run.2) frame = None).
Proof.
  apply (reversed_range_bakes_nothing float _ _ _
           Binary64.CAMERA_DISTANCE Binary64.CAMERA_HEIGHT_OFFSET
           Binary64.walker (Some "mixamorig:Hips"%string) 10 1 Binary64.rehearsed).
  lia.
Defined.

(** ** No validation of the range *)



(** ** Missing bones *)

(** C6: when the named bone is not among the pose bones of an armature,
    [get_target_world_location] returns the translation of the
    armature's own world matrix, and a run of the tracking routine on
    that armature returns without raising, every position it reads being
    the armature's origin on the frame of the read. *)
Theorem missing_bone_falls_back
    (F : Type) (NF : Num F) (MU : Mathutils F) (FC : FCurves F)
    (armature : Object F) (pose_bones : gmap string (Z -> Matrix))
    (bone_name : string) :
  data armature = ARMATURE pose_bones ->
  pose_bones !! bone_name = None ->
  (forall st : Host F,
      get_target_world_location armature bone_name st =
      (Ok (translation (matrix_world armature (frame_current st))),
       mkHost (frame_current st) (camera st)
         (trace st ++ [ReadWorld (frame_current st)
                         (translation (matrix_world armature (frame_current st)))])))
  /\
  (forall (distance height_offset : F) (frame_start frame_end : Z) (st : Host F),
      let run := setup_camera_tracking distance height_offset
                   armature (Some bone_name) frame_start frame_end st in
      run.1 = Ok tt /\
      forall (calls : list (Event F)) (frame : Z) (T : Vec3 F),
        trace run.2 = trace st ++ calls ->
        ReadWorld frame T ∈ calls ->
        T = translation (matrix_world armature frame)).
Proof.
  intros Hdata Hbone. split.
  - intros st. unfold get_target_world_location. rewrite Hdata, Hbone.
    reflexivity.
  - intros distance height_offset frame_start frame_end st run. subst run.
    split; [by rewrite setup_camera_tracking_run|].
    intros calls frame T Hcalls Hread.
    apply run_calls in Hcalls. subst calls.
    apply read_in_run in Hread as [_ ->].
    unfold world_position. rewrite Hdata, Hbone.
    by destruct (truthy (Some bone_name)).
Qed.

(** The walking armature has no bone called "Spine". *)
Lemma missing_bone_falls_back_witness :
  get_target_world_location Binary64.walker "Spine" Binary64.fresh =
  (Ok (0, 0, 0)%float,
   mkHost (F := float) 0 (camera Binary64.fresh) [ReadWorld 0 (0, 0, 0)%float]).
Proof.
  refine (proj1 (missing_bone_falls_back float _ _ _ Binary64.walker
                   {[ "mixamorig:Hips"%string := fun _ : Z => Binary64.placed_at 0 0 1 ]}
                   "Spine" _ _) Binary64.fresh).
  - reflexivity.
  - vm_compute. reflexivity.
Defined.

(** ** Order of the frames *)


(** ** Keys of earlier runs *)


(** ** The look direction *)

(** With exact arithmetic the direction from the camera to the target is
    [(0, distance, - height_offset)] up to equality of fractions. *)
Lemma exact_look_direction (distance height_offset : Q) (T : Vec3 Q) :
  let direction := look_direction T (camera_position distance height_offset T) in
  (vx direction == 0)%Q /\
  (vy direction == distance)%Q /\
  (vz direction == - height_offset)%Q.
Proof.
  destruct T as [[x y] z]. cbn -[Qminus Qplus]. repeat split; ring.
Qed.




(** ** Worked examples with Python floats *)

(** The example of the specification: target at the origin, camera at
    [(0, -2.5, 1.5)], looking along [(0, 2.5, -1.5)]. *)
Example origin_look_direction :
  pose_direction Binary64.CAMERA_DISTANCE Binary64.CAMERA_HEIGHT_OFFSET
    (Binary64.still OTHER 0 0 0) None 1 = (0, 2.5, -1.5)%float.
Proof. reflexivity. Qed.

(** The hip bone of the walking armature is followed: on frame 6 the
    armature stands at y = 4 and the bone one unit above it. *)
Example walker_hips_followed :
  location_key
    (camera (Binary64.setup_camera_tracking
               Binary64.walker (Some "mixamorig:Hips"%string) 1 11
               Binary64.fresh).2) 6
  = Some (0, 1.5, 2.5)%float.
Proof. vm_compute. reflexivity. Qed.

(** A key left on frame 3 by an earlier run is gone after tracking
    frames 1 to 11, and frames 1, 6 and 11 are keyed. *)
Example rehearsed_keys_replaced :
  let cam := camera (Binary64.setup_camera_tracking
                       (Binary64.still OTHER 0 0 0) None 1 11
                       Binary64.rehearsed).2 in
  location_key cam 3 = None /\
  (location_key cam <$> [1; 6; 11]) = [Some (0, -2.5, 1.5)%float;
                                       Some (0, -2.5, 1.5)%float;
                                       Some (0, -2.5, 1.5)%float].
Proof. vm_compute. split; reflexivity. Qed.

(** The count in the closing message is not the number of baked frames
    when the range is reversed by more than one step. *)
Example reversed_range_report :
  List.last (trace (Binary64.setup_camera_tracking
                      (Binary64.still OTHER 0 0 0) None 10 1
                      Binary64.fresh).2) (Echo (Baked 0))
  = Echo (Baked (-1)).
Proof. vm_compute. reflexivity. Qed.

(** * Further properties of the tracker *)

Lemma sampled_frames_last (frame_start frame_end : Z) :
  frame_start <= frame_end ->
  List.last (sampled_frames frame_start frame_end) 0 =
  frame_end - (frame_end - frame_start) mod FRAME_STEP.
Proof.
  intros Hle. unfold sampled_frames. rewrite range_length_step.
  destruct (Z.ltb_spec frame_start (frame_end + 1)); [|lia].
  replace (frame_end + 1 - frame_start - 1) with (frame_end - frame_start) by lia.
  assert (0 <= (frame_end - frame_start) / FRAME_STEP) as Hq
    by (apply Z.div_pos; unfold FRAME_STEP; lia).
  replace ((frame_end - frame_start) / FRAME_STEP + 1)
    with (Z.of_nat (S (Z.to_nat ((frame_end - frame_start) / FRAME_STEP)))) by lia.
  rewrite seqZ_S, fmap_app. cbn [fmap list_fmap]. rewrite List.last_last.
  rewrite Z2Nat.id by done.
  pose proof (Z.div_mod (frame_end - frame_start) FRAME_STEP) as Hdm.
  unfold FRAME_STEP in *. lia.
Qed.

Lemma sampled_frames_nonempty (frame_start frame_end : Z) :
  frame_start <= frame_end -> sampled_frames frame_start frame_end <> [].
Proof.
  intros Hle Hnil. pose proof (sampled_frames_length frame_start frame_end Hle) as Hlen.
  rewrite Hnil in Hlen. simpl in Hlen.
  assert (0 <= (frame_end - frame_start) / FRAME_STEP)
    by (apply Z.div_pos; unfold FRAME_STEP; lia).
  lia.
Qed.

(** ** The keyed rotation *)



(** ** Which point is followed *)

(** X2: when the armature has the named bone and the name is not empty,
    [get_target_world_location] returns the translation of
    [armature.matrix_world @ bone.matrix] on the frame the scene is on,
    and every position a tracking run reads is that translation on the
    frame of the read. *)
Theorem bone_position_followed
    (F : Type) (NF : Num F) (MU : Mathutils F) (FC : FCurves F)
    (armature : Object F) (pose_bones : gmap string (Z -> Matrix))
    (bone_name : string) (bone : Z -> Matrix) :
  data armature = ARMATURE pose_bones ->
  pose_bones !! bone_name = Some bone ->
  bone_name <> ""%string ->
  (forall st : Host F,
      let here := frame_current st in
      let T := translation (matmul (matrix_world armature here) (bone here)) in
      get_target_world_location armature bone_name st =
      (Ok T, mkHost here (camera st) (trace st ++ [ReadWorld here T])))
  /\
  (forall (distance height_offset : F) (frame_start frame_end : Z) (st : Host F)
          (calls : list (Event F)) (frame : Z) (T : Vec3 F),
      trace (setup_camera_tracking distance height_offset
               armature (Some bone_name) frame_start frame_end st).2
        = trace st ++ calls ->
      ReadWorld frame T ∈ calls ->
      T = translation (matmul (matrix_world armature frame) (bone frame))).
Proof.
  intros Hdata Hbone Hname. split.
  - intros st here T. subst here T.
    unfold get_target_world_location. rewrite Hdata, Hbone. reflexivity.
  - intros distance height_offset frame_start frame_end st calls frame T Hcalls Hread.
    apply run_calls in Hcalls. subst calls.
    apply read_in_run in Hread as [_ ->].
    unfold world_position, truthy. rewrite Hdata, Hbone.
    destruct (String.eqb_spec bone_name ""); [done | reflexivity].
Qed.

(** The hips of the walking armature on frame 6: the armature stands at
    y = 4 and the bone one unit up. *)
Lemma bone_position_followed_witness :
  (0, 4, 1)%float =
  translation (matmul (matrix_world Binary64.walker 6) (Binary64.placed_at 0 0 1)).
Proof.
  refine (proj2 (bone_position_followed float _ _ _ Binary64.walker
                   {[ "mixamorig:Hips"%string := fun _ : Z => Binary64.placed_at 0 0 1 ]}
                   "mixamorig:Hips" (fun _ : Z => Binary64.placed_at 0 0 1) _ _ _)
            Binary64.CAMERA_DISTANCE Binary64.CAMERA_HEIGHT_OFFSET 1 11 Binary64.fresh
            (trace (Binary64.setup_camera_tracking Binary64.walker
                      (Some "mixamorig:Hips"%string) 1 11 Binary64.fresh).2)
            6 (0, 4, 1)%float _ _).
  - reflexivity.
  - vm_compute. reflexivity.
  - discriminate.
  - vm_compute. reflexivity.
  - vm_compute. apply list_elem_of_In. simpl. tauto.
Defined.

(** X3: when the target is not an armature, or no bone name or an empty
    one is given, a tracking run follows the target's own origin: every
    position it reads is the translation of [target.matrix_world] on the
    frame of the read, and [get_target_world_location], which raises an
    [AttributeError] on an object without a pose, is not reached with
    one. *)
Theorem origin_followed_without_bone
    (F : Type) (NF : Num F) (MU : Mathutils F) (FC : FCurves F)
    (distance height_offset : F)
    (target : Object F) (bone_name : option string)
    (frame_start frame_end : Z) (st : Host F) :
  data target = OTHER \/ bone_name = None \/ bone_name = Some ""%string ->
  let run := setup_camera_tracking distance height_offset
               target bone_name frame_start frame_end st in
  run.1 = Ok tt /\
  (forall (calls : list (Event F)) (frame : Z) (T : Vec3 F),
      trace run.2 = trace st ++ calls ->
      ReadWorld frame T ∈ calls ->
      T = translation (matrix_world target frame)) /\
  (data target = OTHER ->
   forall (name : string) (st0 : Host F),
     get_target_world_location target name st0 = (Raise AttributeError, st0)).
Proof.
  intros Hcase run. subst run.
  split; [by rewrite setup_camera_tracking_run|]. split.
  - intros calls frame T Hcalls Hread.
    apply run_calls in Hcalls. subst calls.
    apply read_in_run in Hread as [_ ->].
    unfold world_position.
    destruct Hcase as [-> | [-> | ->]]; [by destruct bone_name | |];
      by destruct (data target).
  - intros Hdata name st0. unfold get_target_world_location.
    by rewrite Hdata.
Qed.

(** A mesh resting at (1, 2, 3), tracked with a bone name. *)
Lemma origin_followed_without_bone_witness :
  (1, 2, 3)%float = translation (matrix_world (Binary64.still OTHER 1 2 3) 1).
Proof.
  refine (proj1 (proj2 (origin_followed_without_bone float _ _ _
            Binary64.CAMERA_DISTANCE Binary64.CAMERA_HEIGHT_OFFSET
            (Binary64.still OTHER 1 2 3) (Some "mixamorig:Hips"%string)
            1 1 Binary64.fresh _))
            (trace (Binary64.setup_camera_tracking (Binary64.still OTHER 1 2 3)
                      (Some "mixamorig:Hips"%string) 1 1 Binary64.fresh).2)
            1 (1, 2, 3)%float _ _).
  - left. reflexivity.
  - vm_compute. reflexivity.
  - vm_compute. apply list_elem_of_In. simpl. tauto.
Defined.

(** ** What the scene looks like afterwards *)



(** X5: tracking twice in a row gives what tracking once gives: the
    second run leaves the same camera (pose and keys) and the same
    frame as the first. *)
Theorem tracking_twice_is_tracking_once
    (F : Type) (NF : Num F) (MU : Mathutils F) (FC : FCurves F)
    (distance height_offset : F)
    (target : Object F) (bone_name : option string)
    (frame_start frame_end : Z) (st : Host F) :
  let once := (setup_camera_tracking distance height_offset
                 target bone_name frame_start frame_end st).2 in
  let twice := (setup_camera_tracking distance height_offset
                  target bone_name frame_start frame_end once).2 in
  camera twice = camera once /\ frame_current twice = frame_current once.
Proof.
  intros once twice. subst twice once.
  rewrite !setup_camera_tracking_run. cbn [snd].
  by destruct (sampled_frames frame_start frame_end).
Qed.

(** ** The closing message *)

(** X6: the count in the closing message,
    [(frame_end - frame_start) // FRAME_STEP + 1], is the number of
    frames that were baked exactly when
    [frame_start - frame_end <= FRAME_STEP]; for a range reversed by more
    than one step the message reports a negative count although nothing
    was baked. *)
Theorem reported_count_right_iff
    (F : Type) (NF : Num F) (MU : Mathutils F) (FC : FCurves F)
    (distance height_offset : F)
    (target : Object F) (bone_name : option string)
    (frame_start frame_end : Z) (st : Host F) :
  exists count : Z,
    List.last (trace (setup_camera_tracking distance height_offset
                        target bone_name frame_start frame_end st).2)
              (Echo (Baked 0)) = Echo (Baked count) /\
    (count = Z.of_nat (length (sampled_frames frame_start frame_end)) <->
     frame_start - frame_end <= FRAME_STEP) /\
    (FRAME_STEP < frame_start - frame_end <-> count < 0).
Proof.
  exists ((frame_end - frame_start) / FRAME_STEP + 1). split.
  - rewrite run_trace. unfold run_events. rewrite !app_assoc. apply List.last_last.
  - destruct (Z_le_gt_dec frame_start frame_end) as [Hle|Hgt].
    + rewrite sampled_frames_length by done.
      assert (0 <= (frame_end - frame_start) / FRAME_STEP)
        by (apply Z.div_pos; unfold FRAME_STEP; lia).
      unfold FRAME_STEP in *. lia.
    + rewrite sampled_frames_reversed by lia. cbn [length Z.of_nat].
      pose proof (Z.div_mod (frame_end - frame_start) FRAME_STEP) as Hdm.
      pose proof (Z.mod_pos_bound (frame_end - frame_start) FRAME_STEP) as Hmod.
      unfold FRAME_STEP in *. lia.
Qed.

(** * Properties of the script around the tracker *)

Section ScriptFacts.
Import Script.
Context {MU : Mathutils float} {FC : FCurves float}.
Variable world : World.

#[local] Existing Instance cmd_ret.
#[local] Existing Instance cmd_bind.

(** ** Stepping through a command *)

Lemma extend_nil (s : Session) : extend s [] = s.
Proof. destruct s. unfold extend. cbn. by rewrite app_nil_r. Qed.

Lemma extend_extend (s : Session) (a b : list Call) :
  extend (extend s a) b = extend s (a ++ b).
Proof. unfold extend. cbn. by rewrite app_assoc. Qed.

Lemma bind_run {A B} (c : Cmd A) (k : A -> Cmd B) (s : Session) :
  (c ≫= k) s =
  match c s with
  | (Done a, s') => k a s'
  | (Stop why, s') => (Stop why, s')
  end.
Proof. reflexivity. Qed.

Lemma bind_done {A B} (c : Cmd A) (k : A -> Cmd B) (s s' : Session) (a : A) :
  c s = (Done a, s') -> (c ≫= k) s = k a s'.
Proof. intros Hc. by rewrite bind_run, Hc. Qed.

Lemma bind_stop {A B} (c : Cmd A) (k : A -> Cmd B) (s s' : Session) (why : Abort) :
  c s = (Stop why, s') -> (c ≫= k) s = (Stop why, s').
Proof. intros Hc. by rewrite bind_run, Hc. Qed.

Lemma emit_run (c : Call) (s : Session) : emit c s = (Done tt, extend s [c]).
Proof. reflexivity. Qed.

Lemma bind_emit {B} (c : Call) (k : unit -> Cmd B) (s : Session) :
  (emit c ≫= k) s = k tt (extend s [c]).
Proof. reflexivity. Qed.

Lemma bind_ret {A B} (a : A) (k : A -> Cmd B) (s : Session) :
  (mret a ≫= k) s = k a s.
Proof. reflexivity. Qed.

Lemma ret_run {A} (a : A) (s : Session) : (mret a : Cmd A) s = (Done a, s).
Proof. reflexivity. Qed.

Ltac calls_of_script :=
  unfold echo, secho, assign, op, method.

Ltac step :=
  repeat first
    [ rewrite bind_emit
    | rewrite bind_ret
    | rewrite emit_run
    | rewrite ret_run
    | rewrite extend_extend ].

Lemma reset_scene_run (s : Session) :
  reset_scene s =
  (Done tt,
   extend s [Assign (Bpy "context.scene.render") "engine" (VStr "BLENDER_EEVEE");
             Assign (Bpy "context.scene.render") "resolution_x" (VInt 1080);
             Assign (Bpy "context.scene.render") "resolution_y" (VInt 1920);
             Assign (Bpy "context.scene.render") "resolution_percentage" (VInt 100)]).
Proof. unfold reset_scene. calls_of_script. step. reflexivity. Qed.

Lemma ensure_object_mode_run (s : Session) :
  ensure_object_mode s =
  (Done tt,
   mkSession "OBJECT" (playback s) (scene_camera s) (node_groups s) (modifiers s)
     (calls s ++ if String.eqb (mode s) "OBJECT" then []
                 else [Op "object.mode_set" [("mode"%string, VStr "OBJECT")]])).
Proof.
  unfold ensure_object_mode. rewrite bind_run. cbn [get_mode].
  destruct (String.eqb_spec (mode s) "OBJECT") as [Hmode|_].
  - cbn [negb]. rewrite ret_run, app_nil_r, <- Hmode. by destruct s.
  - cbn [negb]. calls_of_script. step. reflexivity.
Qed.

Lemma import_fbx_missing (fbx_path : Path) (s : Session) :
  path_exists world fbx_path = false ->
  import_fbx world fbx_path s =
  (Stop (Exit 1),
   extend s [Say "Error: FBX file not found: {fbx_path}" [VPath fbx_path]
                 (Some RED) false]).
Proof.
  intros Hno. unfold import_fbx. rewrite Hno. cbn [negb].
  calls_of_script. step. reflexivity.
Qed.

Lemma import_fbx_found (fbx_path : Path) (s : Session) :
  path_exists world fbx_path = true ->
  import_fbx world fbx_path s =
  (Done (fbx_objects world fbx_path),
   extend s [Say "Importing FBX: {fbx_path}" [VPath fbx_path] None false;
             Op "wm.fbx_import" [("filepath"%string, VStr (path_str world fbx_path))];
             Say "✓ Imported {len(imported_objects)} objects"
                 [VInt (Z.of_nat (length (fbx_objects world fbx_path)))]
                 (Some GREEN) false]).
Proof.
  intros Hyes. unfold import_fbx. rewrite Hyes. cbn [negb].
  calls_of_script. step. reflexivity.
Qed.

Lemma create_tiktok_camera_run (camera_name : string) (s : Session) :
  let cam := mkCamera (camera_spawn world).1 (camera_spawn world).2 None in
  create_tiktok_camera world camera_name s =
  (Done cam,
   mkSession (mode s) (playback s) (Some cam) (node_groups s) (modifiers s)
     (calls s ++
      [Op "object.camera_add" [];
       Assign (Var "camera") "name" (VStr camera_name);
       Assign (Var "camera") "data.name" (VStr (camera_name ++ "_data"));
       Assign (Var "camera") "data.lens" (VInt 50);
       Assign (Var "camera") "data.sensor_width" (VInt 36);
       Assign (Var "camera") "data.sensor_height" (VFloat 64);
       Assign (Bpy "context.scene") "camera" (VRef (Var "camera"))])).
Proof.
  intros cam. unfold create_tiktok_camera. calls_of_script. step.
  rewrite bind_run. reflexivity.
Qed.

Lemma add_studio_lighting_run (s : Session) :
  exists lights : list Call,
    add_studio_lighting s = (Done tt, extend s lights) /\
    operators lights = ["object.light_add"; "object.light_add"; "object.light_add"]%string.
Proof.
  eexists. split.
  - unfold add_studio_lighting, add_light. calls_of_script. step.
    rewrite !bind_run. step. cbv beta iota. step.
    rewrite !bind_run. step. cbv beta iota. step.
    rewrite !bind_run. step. cbv beta iota. step. reflexivity.
  - reflexivity.
Qed.

Lemma save_blend_file_run (output_path : option Path) (s : Session) :
  let target := default (Join Cwd SAVE_NAME) output_path in
  save_blend_file world output_path s =
  (Done tt,
   extend s [Method (At (Parent target)) "mkdir"
               [("parents"%string, VInt 1); ("exist_ok"%string, VInt 1)];
             Op "wm.save_as_mainfile"
               [("filepath"%string, VStr (path_str world target))];
             Say "✓ Saved: {output_path}" [VPath target] (Some GREEN) false]).
Proof.
  intros target. subst target. unfold save_blend_file. calls_of_script.
  destruct output_path; step; reflexivity.
Qed.

Lemma operators_app (a b : list Call) :
  operators (a ++ b) = operators a ++ operators b.
Proof. unfold operators. apply omap_app. Qed.

Lemma operators_cons (c : Call) (cs : list Call) :
  operators (c :: cs) =
  match c with
  | Op name _ => name :: operators cs
  | _ => operators cs
  end.
Proof. by destruct c. Qed.

Lemma operators_tracked (events : list (Event float)) :
  operators (Tracked <$> events) = [].
Proof. induction events as [|e events IH]; [done|]. exact IH. Qed.

Lemma omap_tracked {B} (f : Call -> option B) (events : list (Event float)) :
  (forall e, f (Tracked e) = None) -> omap f (Tracked <$> events) = [].
Proof.
  intros Hf. induction events as [|e events IH]; [done|].
  cbn. by rewrite Hf.
Qed.

(** What the tracking call leaves, in terms of the run of the routine
    on the scene's frame and the given camera. *)
Lemma tracking_run (cam : Camera float) (target : Object float)
    (bone_name : option string) (frame_start frame_end : Z) (s : Session) :
  tracking cam target bone_name frame_start frame_end s =
  (Done tt,
   mkSession (mode s)
     (frame_current
        (setup_camera_tracking Binary64.CAMERA_DISTANCE Binary64.CAMERA_HEIGHT_OFFSET
           target bone_name frame_start frame_end (mkHost (playback s) cam [])).2)
     (Some (camera
        (setup_camera_tracking Binary64.CAMERA_DISTANCE Binary64.CAMERA_HEIGHT_OFFSET
           target bone_name frame_start frame_end (mkHost (playback s) cam [])).2))
     (node_groups s) (modifiers s)
     (calls s ++
      (Tracked <$> trace
         (setup_camera_tracking Binary64.CAMERA_DISTANCE Binary64.CAMERA_HEIGHT_OFFSET
            target bone_name frame_start frame_end (mkHost (playback s) cam [])).2))).
Proof.
  unfold tracking.
  pose proof (setup_camera_tracking_run
                Binary64.CAMERA_DISTANCE Binary64.CAMERA_HEIGHT_OFFSET
                target bone_name frame_start frame_end (mkHost (playback s) cam []))
    as Hrun.
  destruct (setup_camera_tracking _ _ _ _ _ _ _) as [result host].
  injection Hrun as -> _. reflexivity.
Qed.

(** Unfolds the script down to the host's answers and the tracker. *)
Ltac crunch :=
  cbv beta iota zeta delta
    [create import_pointcloud_cmd import_each import_one
     mbind cmd_bind mret cmd_ret emit echo secho assign op method stop
     reset_scene ensure_object_mode get_mode set_mode
     import_fbx create_tiktok_camera set_scene_camera
     add_studio_lighting add_light save_blend_file
     import_ply name_and_rotate_pointcloud get_node_groups set_node_groups
     get_modifiers set_modifiers wm_append append_radiance_field_node_group
     modifiers_new modifiers_get apply_radiance_field_to_object set_bounding_box
     extend mode playback scene_camera node_groups modifiers calls
     truthy fst snd negb andb default from_option].

Ltac tidy_calls := rewrite <- ?app_assoc; cbn [app].

Ltac here_or_later :=
  repeat first [ apply list_elem_of_here | apply list_elem_of_further ].

Ltac count_operators :=
  repeat first
    [ rewrite operators_cons; cbv beta iota
    | rewrite operators_app
    | rewrite operators_tracked ];
  try reflexivity.

(** ** [find_armature] *)

(** X7: [find_armature] returns the first imported object whose type is
    ARMATURE: everything before it in the list is something else; it
    returns nothing exactly when no imported object is an armature. *)
Theorem find_armature_first (imported_objects : list SceneObject) :
  match find_armature imported_objects with
  | Some armature =>
      exists before after : list SceneObject,
        imported_objects = before ++ armature :: after /\
        type_is_armature (body armature) = true /\
        Forall (fun obj => type_is_armature (body obj) = false) before
  | None =>
      Forall (fun obj => type_is_armature (body obj) = false) imported_objects
  end.
Proof.
  induction imported_objects as [|obj rest IH]; [constructor|].
  cbn [find_armature]. destruct (type_is_armature (body obj)) eqn:Hobj.
  - exists [], rest. by repeat split.
  - destruct (find_armature rest) as [armature|].
    + destruct IH as (before & after & -> & Harm & Hbefore).
      exists (obj :: before), after. repeat split; [done|]. by constructor.
    + by constructor.
Qed.

(** ** The [create] command *)



(** ** What a command can be relied on to do *)

Lemma behaves_ret {A} (P : Call -> Prop) (Q : Abort -> Prop) (a : A) :
  behaves P Q (mret a : Cmd A).
Proof.
  intros s. exists []. rewrite app_nil_r.
  split; [reflexivity|]. split; [constructor | by intros ? [=]].
Qed.

Lemma behaves_stop {A} (P : Call -> Prop) (Q : Abort -> Prop) (why : Abort) :
  Q why -> behaves P Q (stop why : Cmd A).
Proof.
  intros Hq s. exists []. rewrite app_nil_r.
  split; [reflexivity|]. split; [constructor | by intros ? [= <-]].
Qed.

Lemma behaves_emit (P : Call -> Prop) (Q : Abort -> Prop) (c : Call) :
  P c -> behaves P Q (emit c).
Proof.
  intros Hp s. exists [c].
  split; [reflexivity|]. split; [by repeat constructor | by intros ? [=]].
Qed.

Lemma behaves_bind {A B} (P : Call -> Prop) (Q : Abort -> Prop)
    (c : Cmd A) (k : A -> Cmd B) :
  behaves P Q c -> (forall a, behaves P Q (k a)) -> behaves P Q (c ≫= k).
Proof.
  intros Hc Hk s. destruct (Hc s) as (m1 & Hcalls & Hall & Hstop).
  rewrite bind_run. destruct (c s) as [[a|why] s'].
  - destruct (Hk a s') as (m2 & Hcalls2 & Hall2 & Hstop2).
    exists (m1 ++ m2). cbn [snd] in Hcalls. rewrite Hcalls2, Hcalls, app_assoc.
    split; [reflexivity|]. split; [by apply Forall_app | exact Hstop2].
  - exists m1. split; [exact Hcalls|]. split; [exact Hall|].
    intros why' [= <-]. by apply Hstop.
Qed.

Lemma behaves_ret_bind {A B} (P : Call -> Prop) (Q : Abort -> Prop)
    (a : A) (k : A -> Cmd B) :
  behaves P Q (k a) -> behaves P Q (mret a ≫= k).
Proof. intros Hk s. rewrite bind_ret. apply Hk. Qed.

(** Nothing runs after a stop. *)
Lemma behaves_abort_bind {A B C} (P : Call -> Prop) (Q : Abort -> Prop)
    (c : Cmd A) (why : Abort) (k : B -> Cmd C) :
  behaves P Q c -> Q why -> behaves P Q ((c ≫= fun _ => stop why) ≫= k).
Proof.
  intros Hc Hq s. destruct (Hc s) as (more & Hcalls & Hall & Hstop).
  rewrite !bind_run. destruct (c s) as [[a|why'] s'].
  - exists more. split; [exact Hcalls|]. split; [exact Hall|].
    by intros ? [= <-].
  - exists more. split; [exact Hcalls|]. split; [exact Hall|].
    intros ? [= <-]. by apply Hstop.
Qed.

(** Commands that touch the session without calling the host. *)
Lemma behaves_silent {A} (P : Call -> Prop) (Q : Abort -> Prop) (c : Cmd A) :
  (forall s, exists a s', c s = (Done a, s') /\ calls s' = calls s) ->
  behaves P Q c.
Proof.
  intros Hc s. destruct (Hc s) as (a & s' & -> & Hcalls).
  exists []. rewrite app_nil_r.
  split; [done|]. split; [constructor | by intros ? [=]].
Qed.

Lemma behaves_tracking (P : Call -> Prop) (Q : Abort -> Prop)
    (cam : Camera float) (target : Object float) (bone_name : option string)
    (frame_start frame_end : Z) :
  (forall e, P (Tracked e)) ->
  behaves P Q (tracking cam target bone_name frame_start frame_end).
Proof.
  intros Hp s. rewrite tracking_run. eexists. cbn [fst snd calls].
  split; [reflexivity|]. split; [|by intros ? [=]].
  apply Forall_fmap, Forall_forall. intros e _. apply Hp.
Qed.

Lemma behaves_import_each (P : Call -> Prop) (Q : Abort -> Prop)
    (total : nat) (rot : float * float * float) (node_group : string)
    (bounding_box : option (list float)) :
  (forall i ply_file bbox,
      behaves P Q (import_one world total rot node_group bounding_box i ply_file bbox)) ->
  forall ply_files i bbox,
    behaves P Q (import_each world total rot node_group bounding_box i ply_files bbox).
Proof.
  intros Hone ply_files. induction ply_files as [|ply_file rest IH]; intros i bbox.
  - apply behaves_ret.
  - cbn [import_each]. apply behaves_bind; [apply Hone|]. intros ?. apply IH.
Qed.

Ltac silent := apply behaves_silent; intros ?; do 2 eexists; split; reflexivity.

(** Breaks a command down to the calls it makes; what is left to show
    is that each call satisfies the property, and that each way of
    stopping is an allowed one. *)
Ltac behave :=
  repeat match goal with
  | |- behaves _ _ (mret _ ≫= _) => apply behaves_ret_bind
  | |- behaves _ _ ((_ ≫= fun _ => stop _) ≫= _) => apply behaves_abort_bind
  | |- behaves _ _ (_ ≫= _) => apply behaves_bind; [|intros ?]
  | |- behaves _ _ (mret _) => apply behaves_ret
  | |- behaves _ _ (stop _) => apply behaves_stop
  | |- behaves _ _ (emit _) => apply behaves_emit
  | |- behaves _ _ (tracking _ _ _ _ _) => apply behaves_tracking; intros ?
  | |- behaves _ _ get_mode => silent
  | |- behaves _ _ (set_mode _) => silent
  | |- behaves _ _ (set_scene_camera _) => silent
  | |- behaves _ _ get_node_groups => silent
  | |- behaves _ _ (set_node_groups _) => silent
  | |- behaves _ _ (get_modifiers _) => silent
  | |- behaves _ _ (set_modifiers _ _) => silent
  | |- behaves _ _ (import_each _ _ _ _ _ _ _ _) =>
      apply behaves_import_each; intros ? ? ?
  | |- behaves _ _ (match ?x with _ => _ end) => destruct x
  | |- behaves _ _ _ =>
      progress unfold echo, secho, assign, op, method, reset_scene,
        ensure_object_mode, import_fbx, create_tiktok_camera, add_studio_lighting,
        add_light, save_blend_file, import_ply, name_and_rotate_pointcloud,
        wm_append, append_radiance_field_node_group, modifiers_new, modifiers_get,
        apply_radiance_field_to_object, set_bounding_box, import_one
  end.


(** ** The [import-pointcloud] command *)

(** X10: every rotation the command gives an imported object is, in
    radians, the rotation from the command line with 90 degrees added
    about X, or (90, 0, 0) degrees when none was given. *)
Theorem pointcloud_rotation_offset
    (pointcloud pointcloud_dir : option Path) (rotation : option (list float))
    (output : option Path) (radiance_field_blend : Path)
    (bounding_box : option (list float)) (s : Session) :
  let run := import_pointcloud_cmd world pointcloud pointcloud_dir rotation output
               radiance_field_blend bounding_box s in
  let degrees :=
    match rotation with
    | Some [r0; r1; r2] => ((r0 + 90)%float, r1, r2)
    | _ => (90, 0, 0)%float
    end in
  exists more : list Call,
    calls run.2 = calls s ++ more /\
    forall (ident : nat) (value : Value),
      Assign (Obj ident) "rotation_euler" value ∈ more ->
      value = VTuple [VFloat (radians world degrees.1.1);
                      VFloat (radians world degrees.1.2);
                      VFloat (radians world degrees.2)].
Proof.
  intros run degrees. subst run.
  set (P := fun c : Call =>
              forall (ident : nat) (value : Value),
                c = Assign (Obj ident) "rotation_euler" value ->
                value = VTuple [VFloat (radians world degrees.1.1);
                                VFloat (radians world degrees.1.2);
                                VFloat (radians world degrees.2)]).
  assert (behaves P (fun _ => True)
            (import_pointcloud_cmd world pointcloud pointcloud_dir rotation output
               radiance_field_blend bounding_box)) as Hall.
  { unfold import_pointcloud_cmd. subst P degrees.
    destruct rotation as [[|r0 [|r1 [|r2 [|r3 r]]]]|];
      behave; try exact I; by intros ? ? ?; simplify_eq. }
  destruct (Hall s) as (more & Hcalls & Hmore & _).
  exists more. split; [done|]. intros ident value Hin.
  rewrite Forall_forall in Hmore. by apply (Hmore _ Hin ident value).
Qed.

(** X11: the files to import and the rotation are checked before the
    host is touched.  With neither [--pointcloud] nor a directory that
    holds PLY files, or with a rotation that does not have three values,
    the command ends with exit code 1 having only printed: no attribute
    was assigned, no operator called, and the session is as it was. *)
Theorem pointcloud_arguments_checked_first
    (pointcloud pointcloud_dir : option Path) (rotation : option (list float))
    (output : option Path) (radiance_field_blend : Path)
    (bounding_box : option (list float)) (s : Session) :
  let run := import_pointcloud_cmd world pointcloud pointcloud_dir rotation output
               radiance_field_blend bounding_box s in
  let ply_files :=
    match pointcloud, pointcloud_dir with
    | Some pointcloud, _ => [pointcloud]
    | None, Some pointcloud_dir => ply_files_in world (Resolved pointcloud_dir)
    | None, None => []
    end in
  ply_files = [] \/ (exists values, rotation = Some values /\ length values <> 3%nat) ->
  run.1 = Stop (Exit 1) /\
  exists more : list Call,
    run.2 = extend s more /\ forallb prints more = true.
Proof.
  intros run ply_files Hbad. subst run ply_files.
  destruct s as [now frame cam groups mods said].
  destruct pointcloud as [pointcloud|], pointcloud_dir as [pointcloud_dir|];
    try destruct (ply_files_in world (Resolved pointcloud_dir)) as [|file files] eqn:Hfiles;
    try (crunch; rewrite ?Hfiles; split; [reflexivity|]; eexists;
         split; [tidy_calls; reflexivity | reflexivity]).
  all: destruct Hbad as [Hnone | (values & -> & Hlength)]; [discriminate Hnone|].
  all: destruct values as [|r0 [|r1 [|r2 [|r3 values]]]]; try done.
  all: crunch; rewrite ?Hfiles; split; [reflexivity|]; eexists;
       split; [tidy_calls; reflexivity | reflexivity].
Qed.

Ltac not_among :=
  let Hin := fresh "Hin" in
  intros Hin;
  repeat first
    [ apply elem_of_cons in Hin as [Hin|Hin]; [discriminate Hin|]
    | apply elem_of_app in Hin as [Hin|Hin]; [contradiction|] ];
  by apply elem_of_nil in Hin.

(** Unfolds a command down to its helpers. *)
Ltac open_command :=
  cbv beta iota zeta delta
    [create import_pointcloud_cmd import_each import_one
     mbind cmd_bind mret cmd_ret emit echo secho assign op method stop
     extend mode playback scene_camera node_groups modifiers calls
     truthy fst snd negb andb default from_option].

Lemma import_ply_missing (ply_path : Path) (s : Session) :
  path_exists world ply_path = false ->
  import_ply world ply_path s =
  (Stop (Exit 1),
   extend s [Say "Error: PLY file not found: {ply_path}" [VPath ply_path]
                 (Some RED) false]).
Proof.
  intros Hno. unfold import_ply. rewrite Hno. cbn [negb].
  calls_of_script. step. reflexivity.
Qed.

Lemma import_ply_found (ply_path : Path) (s : Session) :
  path_exists world ply_path = true ->
  import_ply world ply_path s =
  (Done (ply_objects world ply_path),
   extend s [Say "Importing PLY: {ply_path}" [VPath ply_path] None false;
             Op "wm.ply_import" [("filepath"%string, VStr (path_str world ply_path))];
             Say "✓ Imported {len(imported)} object(s) from {ply_path.name}"
                 [VInt (Z.of_nat (length (ply_objects world ply_path)));
                  VStr (path_name world ply_path)]
                 (Some GREEN) false]).
Proof.
  intros Hyes. unfold import_ply. rewrite Hyes. cbn [negb].
  calls_of_script. step. reflexivity.
Qed.

Lemma name_and_rotate_pointcloud_run (obj : PlyObject) (new_name : string)
    (rotation_deg : float * float * float) (s : Session) :
  name_and_rotate_pointcloud world obj new_name rotation_deg s =
  (Done tt,
   extend s
     [Assign (Obj (ply_ident obj)) "name" (VStr new_name);
      Assign (Obj (ply_ident obj)) "rotation_euler"
        (VTuple [VFloat (radians world rotation_deg.1.1);
                 VFloat (radians world rotation_deg.1.2);
                 VFloat (radians world rotation_deg.2)]);
      Say "✓ Named '{name}', rotation={rotation_deg[0]}°, {rotation_deg[1]}°, {rotation_deg[2]}°"
          [VStr new_name; VFloat rotation_deg.1.1; VFloat rotation_deg.1.2;
           VFloat rotation_deg.2]
          (Some GREEN) false]).
Proof.
  unfold name_and_rotate_pointcloud. calls_of_script. step. reflexivity.
Qed.

Lemma apply_radiance_field_to_object_run (obj : PlyObject) (node_group : string)
    (s : Session) :
  let existing := default [] (modifiers s !! ply_ident obj) in
  let given := modifier_name world existing "GeometryNodes" in
  apply_radiance_field_to_object world obj node_group s =
  (Done tt,
   mkSession (mode s) (playback s) (scene_camera s) (node_groups s)
     (<[ply_ident obj := existing ++ [given]]> (modifiers s))
     (calls s ++
      [Method (Obj (ply_ident obj)) "modifiers.new"
         [("name"%string, VStr "GeometryNodes"); ("type"%string, VStr "NODES")];
       Assign (Modifier (ply_ident obj) given) "node_group"
         (VRef (Bpy ("data.node_groups['" ++ node_group ++ "']")));
       Say "✓ Applied '{RADIANCE_FIELD_NODE_GROUP}' geometry nodes to '{obj.name}'"
           [VStr RADIANCE_FIELD_NODE_GROUP; VAttr (Obj (ply_ident obj)) "name"]
           (Some GREEN) false])).
Proof.
  intros existing given. subst existing given. destruct s.
  unfold apply_radiance_field_to_object, modifiers_new. crunch. tidy_calls.
  reflexivity.
Qed.

(** ** [append_radiance_field_node_group] *)

(** X12: [append_radiance_field_node_group] returns exactly when the
    blend file exists and the node group is already loaded or the blend
    file has it; the group is then among the loaded ones, and
    [wm.append] was called only when it was not loaded before.
    Otherwise the function ends with exit code 1. *)
Theorem append_radiance_field_node_group_loads
    (blend_path : Path) (s : Session) :
  let run := append_radiance_field_node_group world blend_path s in
  let loaded := bool_decide (RADIANCE_FIELD_NODE_GROUP ∈ node_groups s) in
  let usable :=
    path_exists world blend_path &&
    (loaded || blend_has_group world blend_path RADIANCE_FIELD_NODE_GROUP) in
  run.1 = (if usable then Done RADIANCE_FIELD_NODE_GROUP else Stop (Exit 1)) /\
  (usable = true -> RADIANCE_FIELD_NODE_GROUP ∈ node_groups run.2) /\
  mode run.2 = mode s /\ playback run.2 = playback s /\
  scene_camera run.2 = scene_camera s /\ modifiers run.2 = modifiers s /\
  exists more : list Call,
    calls run.2 = calls s ++ more /\
    operators more =
      (if path_exists world blend_path && negb loaded
       then ["wm.append"%string] else []).
Proof.
  intros run loaded usable. subst run loaded usable.
  destruct s as [now frame cam groups mods said]. cbn [node_groups].
  assert (bool_decide (RADIANCE_FIELD_NODE_GROUP ∈
                         {[RADIANCE_FIELD_NODE_GROUP]} ∪ groups) = true) as Hnow
    by (apply bool_decide_eq_true_2, elem_of_union; left; by apply elem_of_singleton).
  destruct (path_exists world blend_path) eqn:Hblend;
    [destruct (bool_decide (RADIANCE_FIELD_NODE_GROUP ∈ groups)) eqn:Hloaded;
     [|destruct (blend_has_group world blend_path RADIANCE_FIELD_NODE_GROUP) eqn:Hhas]|].
  all: repeat (crunch; progress rewrite ?Hblend, ?Hloaded, ?Hhas, ?Hnow).
  all: crunch; tidy_calls.
  all: split; [reflexivity|].
  all: split; [try done; intros _; try (by apply bool_decide_eq_true in Hloaded);
               set_solver|].
  all: repeat (split; [reflexivity|]).
  all: eexists; split; [reflexivity|]; count_operators.
Qed.

Lemma append_radiance_field_node_group_run (blend_path : Path) (s : Session) :
  path_exists world blend_path = true ->
  (RADIANCE_FIELD_NODE_GROUP ∈ node_groups s \/
   blend_has_group world blend_path RADIANCE_FIELD_NODE_GROUP = true) ->
  append_radiance_field_node_group world blend_path s =
  (Done RADIANCE_FIELD_NODE_GROUP,
   mkSession (mode s) (playback s) (scene_camera s)
     (if bool_decide (RADIANCE_FIELD_NODE_GROUP ∈ node_groups s) then node_groups s
      else {[RADIANCE_FIELD_NODE_GROUP]} ∪ node_groups s)
     (modifiers s)
     (calls s ++
      if bool_decide (RADIANCE_FIELD_NODE_GROUP ∈ node_groups s) then
        [Say "Node group '{RADIANCE_FIELD_NODE_GROUP}' already loaded."
             [VStr RADIANCE_FIELD_NODE_GROUP] None false]
      else
        [Say "Appending node group '{RADIANCE_FIELD_NODE_GROUP}' from {blend_path.name}"
             [VStr RADIANCE_FIELD_NODE_GROUP; VStr (path_name world blend_path)]
             None false;
         Op "wm.append"
            [("filepath"%string,
              VStr (path_str world blend_path ++ "/NodeTree/"
                    ++ RADIANCE_FIELD_NODE_GROUP));
             ("directory"%string, VStr (path_str world blend_path ++ "/NodeTree/"));
             ("filename"%string, VStr RADIANCE_FIELD_NODE_GROUP)];
         Say "✓ Appended node group '{RADIANCE_FIELD_NODE_GROUP}'"
             [VStr RADIANCE_FIELD_NODE_GROUP] (Some GREEN) false])).
Proof.
  intros Hblend Hgroup.
  destruct s as [now frame cam groups mods said]. cbn [node_groups] in Hgroup |- *.
  assert (bool_decide (RADIANCE_FIELD_NODE_GROUP ∈
                         {[RADIANCE_FIELD_NODE_GROUP]} ∪ groups) = true) as Hnow
    by (apply bool_decide_eq_true_2, elem_of_union; left; by apply elem_of_singleton).
  destruct (bool_decide (RADIANCE_FIELD_NODE_GROUP ∈ groups)) eqn:Hloaded.
  - repeat (crunch; progress rewrite ?Hblend, ?Hloaded). crunch. tidy_calls.
    reflexivity.
  - destruct Hgroup as [Hin|Hhas]; [by apply bool_decide_eq_false in Hloaded|].
    repeat (crunch; progress rewrite ?Hblend, ?Hloaded, ?Hhas, ?Hnow).
    crunch. tidy_calls. reflexivity.
Qed.

Ltac among :=
  repeat first
    [ apply list_elem_of_here
    | apply list_elem_of_further
    | apply elem_of_app; right ].

(** X13: the bounding box is checked late.  With one existing PLY file
    that brings in objects, a usable rotation and node group, and a
    [--bounding-box] that does not have three values, the command ends
    with exit code 1 only after the file was imported and its object
    renamed, rotated and given the geometry-nodes modifier; nothing is
    saved. *)
Theorem bounding_box_checked_late
    (pointcloud : Path) (pointcloud_dir : option Path)
    (rotation : option (list float))
    (output : option Path) (radiance_field_blend : Path)
    (values : list float) (s : Session)
    (first : PlyObject) (rest : list PlyObject) :
  (rotation = None \/ exists r0 r1 r2, rotation = Some [r0; r1; r2]) ->
  path_exists world radiance_field_blend = true ->
  (RADIANCE_FIELD_NODE_GROUP ∈ node_groups s \/
   blend_has_group world radiance_field_blend RADIANCE_FIELD_NODE_GROUP = true) ->
  path_exists world pointcloud = true ->
  ply_objects world pointcloud = first :: rest ->
  length values <> 3%nat ->
  let run := import_pointcloud_cmd world (Some pointcloud) pointcloud_dir rotation
               output radiance_field_blend (Some values) s in
  let obj := first_mesh first (first :: rest) in
  run.1 = Stop (Exit 1) /\
  exists more : list Call,
    calls run.2 = calls s ++ more /\
    ("wm.ply_import"%string ∈ operators more) /\
    ("wm.save_as_mainfile"%string ∉ operators more) /\
    (Assign (Obj (ply_ident obj)) "name" (VStr "Pointcloud") ∈ more) /\
    (Method (Obj (ply_ident obj)) "modifiers.new"
       [("name"%string, VStr "GeometryNodes"); ("type"%string, VStr "NODES")] ∈ more).
Proof.
  intros Hrotation Hblend Hgroup Hfile Himported Hlength run obj. subst run obj.
  destruct s as [now frame cam groups mods said]. cbn [node_groups] in Hgroup.
  destruct Hrotation as [-> | (r0 & r1 & r2 & ->)];
    destruct values as [|b0 [|b1 [|b2 [|b3 values]]]]; try done.
  all: open_command.
  all: rewrite reset_scene_run; open_command.
  all: rewrite ensure_object_mode_run; open_command.
  all: rewrite append_radiance_field_node_group_run by done; open_command.
  all: rewrite import_ply_found by done; open_command.
  all: rewrite Himported; open_command.
  all: rewrite name_and_rotate_pointcloud_run; open_command.
  all: rewrite apply_radiance_field_to_object_run; open_command.
  all: tidy_calls; split; [reflexivity|]; eexists; split; [reflexivity|].
  all: set (mode_calls := if String.eqb now "OBJECT" then _ else _);
    set (group_calls := if bool_decide _ then [_] else _).
  all: assert ("wm.save_as_mainfile"%string ∉ operators mode_calls) as Hmode
    by (subst mode_calls; destruct (String.eqb now "OBJECT"); by not_among).
  all: assert ("wm.save_as_mainfile"%string ∉ operators group_calls) as Hloaded
    by (subst group_calls; destruct (bool_decide _); by not_among).
  all: clearbody mode_calls group_calls.
  all: (split; [count_operators; among|]).
  all: (split; [count_operators; not_among|]).
  all: split; among.
Qed.

(** ** When the point-cloud command saves *)

Lemma operators_without (name : string) (more : list Call) :
  Forall (fun c => forall kwargs, c <> Op name kwargs) more ->
  name ∉ operators more.
Proof.
  intros Hnone Hin. unfold operators in Hin.
  apply list_elem_of_omap in Hin as (c & Hc & Hname).
  rewrite Forall_forall in Hnone. destruct c; try discriminate Hname.
  injection Hname as ->. by eapply Hnone.
Qed.

Local Abbreviation saved_unless_exit c :=
  (forall s : Session, exists more : list Call,
      calls (c s).2 = calls s ++ more /\
      ("wm.save_as_mainfile"%string ∈ operators more <->
       forall code, (c s).1 <> Stop (Exit code))).

Lemma saved_unless_exit_bind {A B} (c : Cmd A) (k : A -> Cmd B) :
  behaves (fun call => forall kwargs, call <> Op "wm.save_as_mainfile" kwargs)
          (fun why => why = Exit 1) c ->
  (forall a, saved_unless_exit (k a)) ->
  saved_unless_exit (c ≫= k).
Proof.
  intros Hc Hk s. destruct (Hc s) as (m1 & Hcalls & Hnone & Hstop).
  apply operators_without in Hnone.
  rewrite bind_run. destruct (c s) as [[a|why] s'].
  - destruct (Hk a s') as (m2 & Hcalls2 & Hiff).
    exists (m1 ++ m2). cbn [snd] in Hcalls. rewrite Hcalls2, Hcalls, app_assoc.
    split; [reflexivity|]. rewrite <- Hiff, operators_app, elem_of_app. tauto.
  - exists m1. split; [exact Hcalls|]. rewrite (Hstop why eq_refl). cbn [fst].
    split; [done|]. intros Hnot. by destruct (Hnot 1).
Qed.

Lemma saved_unless_exit_save {B} (output : option Path) (k : unit -> Cmd B) :
  (forall u, behaves (fun _ => True) (fun why => forall code, why <> Exit code) (k u)) ->
  saved_unless_exit (save_blend_file world output ≫= k).
Proof.
  intros Hk s. rewrite bind_run, save_blend_file_run.
  destruct (Hk tt (extend s
              [Method (At (Parent (default (Join Cwd SAVE_NAME) output))) "mkdir"
                 [("parents"%string, VInt 1); ("exist_ok"%string, VInt 1)];
               Op "wm.save_as_mainfile"
                 [("filepath"%string,
                   VStr (path_str world (default (Join Cwd SAVE_NAME) output)))];
               Say "✓ Saved: {output_path}"
                 [VPath (default (Join Cwd SAVE_NAME) output)] (Some GREEN) false]))
    as (m2 & Hcalls & _ & Hstop).
  eexists. rewrite Hcalls. cbn [extend calls]. rewrite <- app_assoc.
  split; [reflexivity|]. split.
  - intros _ code Hexit. by eapply Hstop.
  - intros _. count_operators. among.
Qed.



(** ** When no file brings in an object *)

Lemma bind_assoc {A B C} (c : Cmd A) (k1 : A -> Cmd B) (k2 : B -> Cmd C)
    (s : Session) :
  ((c ≫= k1) ≫= k2) s = (c ≫= fun a => k1 a ≫= k2) s.
Proof. rewrite !bind_run. by destruct (c s) as [[a|why] s']. Qed.

Ltac settle :=
  cbv beta; cbn [extend mode playback scene_camera node_groups modifiers calls].

Lemma import_each_nothing (total : nat) (rot : float * float * float)
    (node_group : string) (bounding_box : option (list float))
    (ply_files : list Path) :
  (forall ply_file, ply_file ∈ ply_files ->
     path_exists world ply_file = true /\ ply_objects world ply_file = []) ->
  forall (i : nat) (bbox : option (float * float * float)) (s : Session),
  exists more : list Call,
    import_each world total rot node_group bounding_box i ply_files bbox s =
    (Done bbox, extend s more) /\
    operators more = replicate (length ply_files) "wm.ply_import"%string.
Proof.
  induction ply_files as [|ply_file rest IH]; intros Hempty i bbox s.
  - exists []. by rewrite extend_nil.
  - destruct (Hempty ply_file) as [Hfile Hnone]; [by left|].
    cbn [import_each]. unfold import_one. rewrite bind_run. calls_of_script. step.
    rewrite (bind_done _ _ _ _ _ (import_ply_found _ _ Hfile)), Hnone.
    cbv beta iota. step.
    match goal with
    | |- context [import_each _ _ _ _ _ ?j _ _ ?s0] =>
        destruct (IH (fun f Hf => Hempty f (list_elem_of_further _ _ _ Hf)) j bbox s0)
          as (more & -> & Hops)
    end.
    rewrite extend_extend. eexists. split; [reflexivity|].
    count_operators. cbn [length replicate]. by rewrite Hops.
Qed.


(** ** Which modifier gets the bounding box *)

Lemma find_by_name (name : string) (names : list string) :
  List.find (String.eqb name) names =
  if bool_decide (name ∈ names) then Some name else None.
Proof.
  induction names as [|n names IH]; [done|]. cbn [List.find].
  destruct (String.eqb_spec name n) as [<-|Hne].
  - by rewrite bool_decide_eq_true_2 by left.
  - rewrite IH, (bool_decide_ext (name ∈ names) (name ∈ n :: names)); [done|].
    rewrite elem_of_cons. intuition congruence.
Qed.

Lemma set_bounding_box_run (obj : PlyObject) (bbox : float * float * float)
    (s : Session) :
  set_bounding_box obj bbox s =
  (Done tt,
   extend s
     (if bool_decide ("GeometryNodes"%string ∈ default [] (modifiers s !! ply_ident obj))
      then [Assign (Modifier (ply_ident obj) "GeometryNodes") "['Socket_3']"
              (bbox_value bbox);
            Say "✓ Bounding box set to {bbox} on '{obj.name}'"
                [bbox_value bbox; VAttr (Obj (ply_ident obj)) "name"]
                (Some GREEN) false]
      else [Say "Warning: No GeometryNodes modifier on '{obj.name}'"
                [VAttr (Obj (ply_ident obj)) "name"] (Some YELLOW) false])).
Proof.
  unfold set_bounding_box, modifiers_get, get_modifiers.
  cbv beta iota delta [mbind cmd_bind mret cmd_ret].
  rewrite find_by_name.
  destruct (bool_decide _); calls_of_script; cbv beta iota delta [emit extend];
    cbn [calls mode playback scene_camera node_groups modifiers];
    rewrite <- ?app_assoc; reflexivity.
Qed.


End ScriptFacts.

(** ** The commands in a small world *)


(** A rotation of two values is turned down before anything is done. *)
Lemma pointcloud_arguments_checked_first_witness :
  let run :=
    Script.import_pointcloud_cmd Script.studio (Some (Script.PathOf "Hydrant.ply")) None
      (Some [10; 20]%float) None Script.RADIANCE_FIELD_BLEND None Script.blank in
  run.1 = Script.Stop (Script.Exit 1) /\
  exists more : list Script.Call,
    run.2 = Script.extend Script.blank more /\ forallb Script.prints more = true.
Proof.
  refine (pointcloud_arguments_checked_first (MU := reference_mathutils float)
            Script.studio (Some (Script.PathOf "Hydrant.ply")) None
            (Some [10; 20]%float) None Script.RADIANCE_FIELD_BLEND None Script.blank _).
  right. exists [10; 20]%float. split; [reflexivity | simpl; lia].
Defined.

(** A bounding box of two values is turned down after the hydrant was
    imported, renamed and given its modifier. *)
Lemma bounding_box_checked_late_witness :
  let run :=
    Script.import_pointcloud_cmd Script.studio (Some (Script.PathOf "Hydrant.ply")) None
      None None Script.RADIANCE_FIELD_BLEND (Some [4; 4]%float) Script.blank in
  let obj :=
    Script.first_mesh (Script.mkPlyObject 7 "EMPTY" "Origin")
      [Script.mkPlyObject 7 "EMPTY" "Origin"; Script.mkPlyObject 8 "MESH" "Hydrant"] in
  run.1 = Script.Stop (Script.Exit 1) /\
  exists more : list Script.Call,
    Script.calls run.2 = Script.calls Script.blank ++ more /\
    ("wm.ply_import"%string ∈ Script.operators more) /\
    ("wm.save_as_mainfile"%string ∉ Script.operators more) /\
    (Script.Assign (Script.Obj (Script.ply_ident obj)) "name" (Script.VStr "Pointcloud")
       ∈ more) /\
    (Script.Method (Script.Obj (Script.ply_ident obj)) "modifiers.new"
       [("name"%string, Script.VStr "GeometryNodes");
        ("type"%string, Script.VStr "NODES")] ∈ more).
Proof.
  refine (bounding_box_checked_late (MU := reference_mathutils float)
            Script.studio (Script.PathOf "Hydrant.ply") None None None
            Script.RADIANCE_FIELD_BLEND [4; 4]%float Script.blank
            (Script.mkPlyObject 7 "EMPTY" "Origin")
            [Script.mkPlyObject 8 "MESH" "Hydrant"] _ _ _ _ _ _).
  - left. reflexivity.
  - reflexivity.
  - right. reflexivity.
  - reflexivity.
  - reflexivity.
  - simpl. lia.
Defined.

